(** * Cloud Network Simulator: queueing, congestion control, packet lifecycle
      and routing metrics

    A shallow embedding of the simulation core of the repository
    (src/congestion.py, src/packet.py, src/routing/router.py and the parts of
    src/latency.py and src/main.py they call), followed by the properties
    proved about it.

    Conventions of the embedding:
    - Python [int] is [Z]; list positions and the packet's [path_index]
      (a counter that starts at 0 and is only incremented) are [nat].
    - Python [float] is modelled by the exact rationals [Q]: [0.1] is
      [1 # 10], [x / 2.0] is [x / 2].  Rounding is not modelled.
    - Python objects that are shared and mutated (packets, links) live in
      explicit stores and are passed around by reference.
    - A dict that is only looked up by key is a [gmap]; a dict whose
      iteration order is observable is an insertion-ordered association
      list. *)

From Stdlib Require Import ZArith QArith Qminmax Lqa Lia.
From stdpp Require Import gmap strings list fin_maps pretty.

(** ** Python primitives *)

Module Py.

(** [max(a, b)]: the first argument unless the second is strictly larger. *)
Definition max (a b : Q) : Q :=
  match (b ?= a)%Q with Gt => b | _ => a end.

(** [min(a, b)]: the first argument unless the second is strictly smaller. *)
Definition min (a b : Q) : Q :=
  match (b ?= a)%Q with Lt => b | _ => a end.

(** [random.randint(a, b)] returns some integer of the closed range
    [a .. b].  The generator is the environment's: its draw is the extra
    argument, reduced to the range, so that quantifying over the draw
    covers every value the call can return. *)
Definition randint (a b : nat) (draw : nat) : nat :=
  a + draw mod (b - a + 1).

(** [float(n)] *)
Definition float (n : Z) : Q := inject_Z n.

(** [a > b] on floats. *)
Definition gt (a b : Q) : bool :=
  match (a ?= b)%Q with Gt => true | _ => false end.

(** [min(m, x)] where [m] may still be [float('inf')], written [None]. *)
Definition min_inf (m : option Q) (x : Q) : option Q :=
  match m with
  | None => Some x
  | Some m => Some (min m x)
  end.

(** [s.rjust(width, '0')] *)
Definition zero_pad (width : nat) (s : string) : string :=
  String.concat "" (replicate (width - String.length s) "0"%string) ++ s.

(** The format [f"{n:04d}"]. *)
Definition format_04d (n : Z) : string :=
  if (n <? 0)%Z then "-" ++ zero_pad 3 (pretty (Z.abs n))
  else zero_pad 4 (pretty n).

End Py.

(** ** src/congestion.py, section 1: queue discipline *)

(** A reference to a [Packet] object (its address in the packet store). *)
Abbreviation PacketRef := nat.

Inductive DropPolicy := TAIL_DROP | HEAD_DROP | RANDOM_DROP.

Module LinkQueue.

(** The dict [{'packet': packet, 'enqueue_time': current_time}]. *)
Record Item := mkItem { packet : PacketRef; enqueue_time : Q }.

Record t := mk {
  link_id : string;
  capacity : Z;
  drop_policy : DropPolicy;
  queue : list Item;
  packets_enqueued : Z;
  packets_dequeued : Z;
  packets_dropped : Z;
  total_queue_delay : Q
}.

(** The dataclass constructor with its defaults. *)
Definition new (lid : string) (cap : Z) (policy : DropPolicy) : t :=
  mk lid cap policy [] 0 0 0 0.

Definition set_queue (q : list Item) (self : t) : t :=
  mk (link_id self) (capacity self) (drop_policy self) q
     (packets_enqueued self) (packets_dequeued self) (packets_dropped self)
     (total_queue_delay self).

Definition incr_enqueued (self : t) : t :=
  mk (link_id self) (capacity self) (drop_policy self) (queue self)
     (packets_enqueued self + 1) (packets_dequeued self) (packets_dropped self)
     (total_queue_delay self).

Definition incr_dropped (self : t) : t :=
  mk (link_id self) (capacity self) (drop_policy self) (queue self)
     (packets_enqueued self) (packets_dequeued self) (packets_dropped self + 1)
     (total_queue_delay self).

Definition record_dequeue (delay : Q) (self : t) : t :=
  mk (link_id self) (capacity self) (drop_policy self) (queue self)
     (packets_enqueued self) (packets_dequeued self + 1) (packets_dropped self)
     (total_queue_delay self + delay).

(** [len(self.queue)] *)
Definition get_size (self : t) : Z := Z.of_nat (length (queue self)).

(** [enqueue(self, packet, current_time)].  [draw] is the generator's draw
    used by the random-drop branch.  Returns the queue after the call and
    the boolean result. *)
Definition enqueue (self : t) (pkt : PacketRef) (current_time : Q)
    (draw : nat) : t * bool :=
  let item := mkItem pkt current_time in
  let self := incr_enqueued self in
  if (get_size self <? capacity self)%Z then
    (set_queue (queue self ++ [item]) self, true)
  else
    let self := incr_dropped self in
    match drop_policy self with
    | TAIL_DROP => (self, false)
    | HEAD_DROP =>
        match queue self with
        | [] => (self, true)
        | _ :: rest => (set_queue (rest ++ [item]) self, true)
        end
    | RANDOM_DROP =>
        match queue self with
        | [] => (self, true)
        | _ :: _ =>
            let idx := Py.randint 0 (length (queue self) - 1) draw in
            (set_queue (delete idx (queue self) ++ [item]) self, true)
        end
    end.

(** [dequeue(self, current_time)]: [None] on an empty queue, otherwise
    the tuple [(packet, queuing_delay)]. *)
Definition dequeue (self : t) (current_time : Q) : t * option (PacketRef * Q) :=
  match queue self with
  | [] => (self, None)
  | item :: rest =>
      let queuing_delay := (current_time - enqueue_time item)%Q in
      (record_dequeue queuing_delay (set_queue rest self),
       Some (packet item, queuing_delay))
  end.

Definition get_utilization (self : t) : Q :=
  if (capacity self =? 0)%Z then 0
  else (inject_Z (get_size self) / inject_Z (capacity self))%Q.

Definition get_avg_delay (self : t) : Q :=
  if (packets_dequeued self =? 0)%Z then 0
  else (total_queue_delay self / inject_Z (packets_dequeued self))%Q.

Definition is_full (self : t) : bool := (capacity self <=? get_size self)%Z.

Definition clear (self : t) : t := set_queue [] self.

End LinkQueue.

(** ** src/packet.py, section 1: the packet *)

Inductive PacketState := QUEUED | IN_TRANSIT | DELIVERED | DROPPED.

Module Packet.

Record t := mk {
  id : string;
  source_node_id : string;
  destination_node_id : string;
  creation_time : Q;
  sent_time : Q;
  delivery_time : Q;
  size : Z;
  state : PacketState;
  path : list string;
  path_index : nat;
  current_node_id : string;
  current_link_index : nat;
  link_start_time : Q;
  link_latency : Q
}.

(** The constructor call [Packet(id=.., source_node_id=..,
    destination_node_id=.., creation_time=.., sent_time=.., size=..,
    path=.., state=..)] with the remaining defaults, followed by
    [__post_init__]. *)
Definition new (pid src dst : string) (created sent : Q) (sz : Z)
    (route : list string) (st : PacketState) : t :=
  mk pid src dst created sent 0 sz st route 0
     (match route with [] => src | first :: _ => first end) 0 0 0.

Definition set_state (st : PacketState) (self : t) : t :=
  mk (id self) (source_node_id self) (destination_node_id self)
     (creation_time self) (sent_time self) (delivery_time self) (size self)
     st (path self) (path_index self) (current_node_id self)
     (current_link_index self) (link_start_time self) (link_latency self).

Definition set_delivery_time (time : Q) (self : t) : t :=
  mk (id self) (source_node_id self) (destination_node_id self)
     (creation_time self) (sent_time self) time (size self)
     (state self) (path self) (path_index self) (current_node_id self)
     (current_link_index self) (link_start_time self) (link_latency self).

Definition set_current_node_id (node : string) (self : t) : t :=
  mk (id self) (source_node_id self) (destination_node_id self)
     (creation_time self) (sent_time self) (delivery_time self) (size self)
     (state self) (path self) (path_index self) node
     (current_link_index self) (link_start_time self) (link_latency self).

Definition set_current_link_index (i : nat) (self : t) : t :=
  mk (id self) (source_node_id self) (destination_node_id self)
     (creation_time self) (sent_time self) (delivery_time self) (size self)
     (state self) (path self) (path_index self) (current_node_id self)
     i (link_start_time self) (link_latency self).

Definition set_link_latency (latency : Q) (self : t) : t :=
  mk (id self) (source_node_id self) (destination_node_id self)
     (creation_time self) (sent_time self) (delivery_time self) (size self)
     (state self) (path self) (path_index self) (current_node_id self)
     (current_link_index self) (link_start_time self) latency.

(** The four assignments of [move_to_next_link] that enter the next link:
    [path_index += 1], [current_node_id = path[path_index]],
    [current_link_index = path_index - 1], [link_start_time = now],
    [state = IN_TRANSIT].  The guard before them makes the new index a
    position of [path]. *)
Definition enter_next_link (now : Q) (self : t) : t :=
  let i := S (path_index self) in
  mk (id self) (source_node_id self) (destination_node_id self)
     (creation_time self) (sent_time self) (delivery_time self) (size self)
     IN_TRANSIT (path self) i (default ""%string (path self !! i))
     (i - 1) now (link_latency self).

(** [get_next_node] *)
Definition get_next_node (self : t) : option string :=
  if S (path_index self) <? length (path self) then path self !! S (path_index self)
  else None.

(** [mark_delivered(delivery_time)] *)
Definition mark_delivered (time : Q) (self : t) : t :=
  set_delivery_time time (set_state DELIVERED self).

(** [mark_dropped()] *)
Definition mark_dropped (self : t) : t := set_state DROPPED self.

(** [move_to_next_link(current_time)]: the packet after the call and the
    boolean result. *)
Definition move_to_next_link (now : Q) (self : t) : t * bool :=
  if length (path self) <=? path_index self + 1 then
    (set_delivery_time now (set_state DELIVERED self), true)
  else
    let self := enter_next_link now self in
    if (Z.of_nat (length (path self)) - 1 <=? Z.of_nat (path_index self))%Z then
      (set_delivery_time now (set_state DELIVERED self), true)
    else (self, false).

(** [get_total_latency] *)
Definition get_total_latency (self : t) : Q :=
  match (delivery_time self ?= 0)%Q with
  | Gt => (delivery_time self - sent_time self)%Q
  | _ => 0
  end.

End Packet.

(** ** Exceptions and results *)

Inductive Exn :=
| ValueError (msg : string)
| KeyError (key : string)
| NetworkXNoPath
| NodeNotFound (node : string)
| NetworkXError (msg : string)
| DanglingReference.

(** What a call produces: a returned value or a raised exception. *)
Inductive Outcome (A : Type) :=
| Return (a : A)
| Raise (e : Exn).
Arguments Return {A} a.
Arguments Raise {A} e.

(** ** src/main.py, section 2: nodes, links and the topology *)

Module Node.

Record t := mk { id : string; label : string; x : Q; y : Q }.

Definition get_position (self : t) : Q * Q := (x self, y self).

End Node.

Module Link.

(** [node_a] and [node_b] hold the identity of the endpoint nodes (the
    code reads them only as [link.node_a.id], [link.node_b.id]). *)
Record t := mk {
  id : string;
  node_a : string;
  node_b : string;
  latency : Q;
  bandwidth : Q;
  queue_size : Z;
  current_queue : Z;
  packets_dropped : Z;
  color : string
}.

Definition set_current_queue (n : Z) (self : t) : t :=
  mk (id self) (node_a self) (node_b self) (latency self) (bandwidth self)
     (queue_size self) n (packets_dropped self) (color self).

Definition set_color (c : string) (self : t) : t :=
  mk (id self) (node_a self) (node_b self) (latency self) (bandwidth self)
     (queue_size self) (current_queue self) (packets_dropped self) c.

(** [update_queue_color], with the colours of [Config]. *)
Definition update_queue_color (self : t) : t :=
  if (queue_size self =? 0)%Z then set_color "black" self
  else
    let utilization :=
      (inject_Z (current_queue self) / inject_Z (queue_size self))%Q in
    if Qle_bool (9 # 10) utilization then set_color "red" self
    else if Qle_bool (5 # 10) utilization then set_color "yellow" self
    else set_color "green" self.

(** The condition of [get_link_by_nodes] on one link. *)
Definition joins (a b : string) (self : t) : bool :=
  (String.eqb (node_a self) a && String.eqb (node_b self) b)
  || (String.eqb (node_a self) b && String.eqb (node_b self) a).

End Link.

(** The [networkx.Graph] held by the network manager: the adjacency map of
    an undirected graph.  Every node is a key; an edge is stored under both
    of its endpoints with the same attribute dict. *)
Module Graph.

(** The attribute dict of an edge; a key that is absent is [None]. *)
Record EdgeData := mkEdge {
  weight : option Q;
  bandwidth : option Q;
  link_id : option string
}.

Abbreviation t := (gmap string (gmap string EdgeData)).

(** [n in graph.nodes()] *)
Definition has_node (g : t) (n : string) : bool :=
  bool_decide (is_Some (g !! n)).

(** [graph.get_edge_data(u, v)], [None] when there is no such edge. *)
Definition get_edge_data (g : t) (u v : string) : option EdgeData :=
  g !! u ≫= λ nbrs, nbrs !! v.

(** [graph.add_node(n)] *)
Definition add_node (n : string) (g : t) : t :=
  match g !! n with Some _ => g | None => <[n := ∅]> g end.

(** [graph.add_edge(u, v, weight=.., bandwidth=.., link_id=..)] *)
Definition add_edge (u v : string) (d : EdgeData) (g : t) : t :=
  let g := add_node v (add_node u g) in
  let g := <[u := <[v := d]> (default ∅ (g !! u))]> g in
  <[v := <[u := d]> (default ∅ (g !! v))]> g.

(** [v] is a neighbour of [u]. *)
Definition adjacent (g : t) (u v : string) : Prop :=
  is_Some (get_edge_data g u v).

(** There is a walk from [u] to [v]. *)
Definition connected (g : t) : relation string := rtc (adjacent g).

End Graph.

(** The insertion-ordered dict [NetworkManager.links]; a link object is
    referred to by its key. *)
Abbreviation LinkStore := (list (string * Link.t)).

Module Links.

(** [links[key]] *)
Fixpoint get (key : string) (links : LinkStore) : option Link.t :=
  match links with
  | [] => None
  | (k, l) :: rest => if String.eqb k key then Some l else get key rest
  end.

(** Replace the object stored under [key] (the model of mutating the link
    object in place). *)
Fixpoint put (key : string) (l : Link.t) (links : LinkStore) : LinkStore :=
  match links with
  | [] => []
  | (k, l0) :: rest =>
      if String.eqb k key then (k, l) :: rest else (k, l0) :: put key l rest
  end.

(** [get_link_by_nodes(node_a_id, node_b_id)]: the first link, in
    insertion order, that joins the two nodes. *)
Fixpoint get_link_by_nodes (a b : string) (links : LinkStore)
    : option (string * Link.t) :=
  match links with
  | [] => None
  | (k, l) :: rest =>
      if Link.joins a b l then Some (k, l) else get_link_by_nodes a b rest
  end.

End Links.

Module NetworkManager.

Record t := mk {
  nodes : gmap string Node.t;
  links : LinkStore;
  graph : Graph.t
}.

Definition set_links (ls : LinkStore) (self : t) : t :=
  mk (nodes self) ls (graph self).

(** [update_networkx_graph]: a new graph with every node and one edge per
    link. *)
Definition update_networkx_graph (self : t) : t :=
  let empty : Graph.t := (λ _, ∅) <$> nodes self in
  let add (g : Graph.t) (entry : string * Link.t) : Graph.t :=
    let l := entry.2 in
    Graph.add_edge (Link.node_a l) (Link.node_b l)
      (Graph.mkEdge (Some (Link.latency l)) (Some (Link.bandwidth l))
                    (Some (Link.id l))) g in
  mk (nodes self) (links self) (fold_left add (links self) empty).

End NetworkManager.

(** ** src/routing/router.py *)

(** The pairs [(path[i], path[i + 1])] for [i in range(len(path) - 1)], in
    that order. *)
Fixpoint consecutive {A} (path : list A) : list (A * A) :=
  match path with
  | a :: (b :: _) as rest => (a, b) :: consecutive rest
  | _ => []
  end.

(** The library function [networkx.shortest_path(G, source, target,
    weight)] as the router sees it: a path as a list of nodes, or a raised
    exception.  [weight] is the name of the edge attribute, [None] for an
    unweighted search. *)
Definition ShortestPath : Type :=
  Graph.t → string → string → option string → Outcome (list string).

(** The part of the library's contract the router relies on: for two nodes
    of the graph that no walk connects, [NetworkXNoPath] is raised. *)
Definition raises_no_path (shortest_path : ShortestPath) : Prop :=
  ∀ (g : Graph.t) source target weight,
    Graph.has_node g source = true → Graph.has_node g target = true →
    ¬ Graph.connected g source target →
    shortest_path g source target weight = Raise NetworkXNoPath.

Module DijkstraRouter.

(** The dict returned by [get_path_info]; [links] holds references into
    the link store. *)
Record PathDict := mkPathDict {
  path_nodes : list string;
  hop_count : Z;
  total_latency : Q;
  bottleneck_bandwidth : Q;
  throughput : Q;
  links : list string
}.

Section Router.
Variable shortest_path : ShortestPath.

(** [compute_shortest_path(start_node_id, end_node_id, metric)] *)
Definition compute_shortest_path (g : Graph.t) (start_node_id end_node_id : string)
    (metric : string) : Outcome (option (list string)) :=
  if negb (Graph.has_node g start_node_id) then
    Raise (ValueError ("Start node " ++ start_node_id ++ " not in graph"))
  else if negb (Graph.has_node g end_node_id) then
    Raise (ValueError ("End node " ++ end_node_id ++ " not in graph"))
  else if String.eqb start_node_id end_node_id then
    Raise (ValueError "Source and destination must be different")
  else
    let attempt :=
      if String.eqb metric "latency" then
        shortest_path g start_node_id end_node_id (Some "weight"%string)
      else if String.eqb metric "hops" then
        shortest_path g start_node_id end_node_id None
      else Raise (ValueError ("Unknown metric: " ++ metric)) in
    match attempt with
    | Return path => Return (Some path)
    | Raise NetworkXNoPath => Return None
    | Raise e => Raise e
    end.

End Router.

(** [get_path_cost(path)] *)
Definition get_path_cost (g : Graph.t) (path : list string) : Q :=
  if length path <? 2 then 0
  else
    fold_left
      (λ (total_cost : Q) '(node_a, node_b),
         match Graph.get_edge_data g node_a node_b with
         | Some edge_data =>
             match Graph.weight edge_data with
             | Some w => (total_cost + w)%Q
             | None => total_cost
             end
         | None => total_cost
         end)
      (consecutive path) 0%Q.

(** [get_bottleneck_bandwidth(path)]; [min_bandwidth] starts as
    [float('inf')], written [None]. *)
Definition get_bottleneck_bandwidth (g : Graph.t) (path : list string) : Q :=
  if length path <? 2 then 0
  else
    let min_bandwidth :=
      fold_left
        (λ (min_bandwidth : option Q) '(node_a, node_b),
           match Graph.get_edge_data g node_a node_b with
           | Some edge_data =>
               match Graph.bandwidth edge_data with
               | Some bw => Py.min_inf min_bandwidth bw
               | None => min_bandwidth
               end
           | None => min_bandwidth
           end)
        (consecutive path) None in
    match min_bandwidth with
    | None => 0
    | Some m => m
    end.

(** [get_path_info(path, network_manager)]; [network_manager] is [None]
    or the manager's link store. *)
Definition get_path_info (g : Graph.t) (path : list string)
    (network_manager : option LinkStore) : PathDict :=
  if length path <? 2 then mkPathDict path 0 0 0 0 []
  else
    let total_latency := get_path_cost g path in
    let bottleneck_bw := get_bottleneck_bandwidth g path in
    let hop_count := (Z.of_nat (length path) - 1)%Z in
    let links :=
      match network_manager with
      | None => []
      | Some store =>
          omap (λ '(a, b), fst <$> Links.get_link_by_nodes a b store)
               (consecutive path)
      end in
    mkPathDict path hop_count total_latency bottleneck_bw bottleneck_bw links.

End DijkstraRouter.

(** ** src/packet.py, section 3: the animation worker (its state and the
    two operations the packet manager calls) *)

Module AnimatorWorker.

Record PacketAnimator := mkAnimator {
  packet : PacketRef;
  node_a_pos : Q * Q;
  node_b_pos : Q * Q;
  link_latency : Q;
  start_time : Q;
  animator_speed : Q
}.

Record t := mk {
  active_packets : gmap string PacketRef;
  animators : gmap string PacketAnimator;
  speed_multiplier : Q;
  sim_time : Q
}.

Definition new : t := mk ∅ ∅ 1 0.

(** [add_packet(packet, node_a_pos, node_b_pos, link_latency)];
    [packet_id] is [packet.id]. *)
Definition add_packet (packet_id : string) (pkt : PacketRef)
    (a_pos b_pos : Q * Q) (latency : Q) (self : t) : t :=
  mk (<[packet_id := pkt]> (active_packets self))
     (<[packet_id := mkAnimator pkt a_pos b_pos latency (sim_time self)
                       (speed_multiplier self)]> (animators self))
     (speed_multiplier self) (sim_time self).

(** [remove_packet(packet_id)] *)
Definition remove_packet (packet_id : string) (self : t) : t :=
  mk (delete packet_id (active_packets self))
     (delete packet_id (animators self))
     (speed_multiplier self) (sim_time self).

End AnimatorWorker.

(** ** src/latency.py: link and packet metrics *)

Module LatencyThroughputEngine.

Record LinkMetrics := mkLinkMetrics {
  lm_link_id : string;
  lm_source_node_id : string;
  lm_dest_node_id : string;
  lm_latency : Q;
  lm_bandwidth : Q;
  packets_sent : Z;
  packets_received : Z;
  total_bytes_transferred : Z;
  total_transit_time : Q
}.

Record PacketMetrics := mkPacketMetrics {
  packet_id : string;
  source_node_id : string;
  destination_node_id : string;
  path_nodes : list string;
  packet_size : Z;
  state : string;
  creation_time : Q;
  sent_time : Q;
  delivery_time : Q;
  path_latencies : list Q;
  hop_count : Z;
  total_latency : Q;
  actual_latency : Q;
  bottleneck_bandwidth : Q;
  throughput : Q;
  link_ids : list string
}.

Record t := mk {
  link_metrics : gmap string LinkMetrics;
  packet_metrics : gmap string PacketMetrics;
  total_packets_sent : Z;
  total_packets_delivered : Z;
  total_packets_dropped : Z
}.

Definition new : t := mk ∅ ∅ 0 0 0.

(** [PacketMetrics.calculate_metrics(network_manager)] *)
Definition calculate_metrics (store : LinkStore) (self : PacketMetrics)
    : PacketMetrics :=
  let hops := (Z.of_nat (length (path_nodes self)) - 1)%Z in
  let '(total_lat, min_bw, latencies, ids) :=
    fold_left
      (λ '(total_lat, min_bw, latencies, ids) '(node_a_id, node_b_id),
         match Links.get_link_by_nodes node_a_id node_b_id store with
         | Some (_, link) =>
             ((total_lat + Link.latency link)%Q,
              Py.min_inf min_bw (Link.bandwidth link),
              latencies ++ [Link.latency link],
              ids ++ [Link.id link])
         | None => (total_lat, min_bw, latencies, ids)
         end)
      (consecutive (path_nodes self))
      (0%Q, None, path_latencies self, link_ids self) in
  let bottleneck :=
    match min_bw with Some m => m | None => bottleneck_bandwidth self end in
  let actual :=
    if Py.gt (delivery_time self) 0 && Py.gt (sent_time self) 0
    then (delivery_time self - sent_time self)%Q
    else actual_latency self in
  let throughput_mbps :=
    if Py.gt actual 0
    then (inject_Z (packet_size self * 8) / (actual / 1000) / 1000000)%Q
    else throughput self in
  mkPacketMetrics (packet_id self) (source_node_id self)
    (destination_node_id self) (path_nodes self) (packet_size self)
    (state self) (creation_time self) (sent_time self) (delivery_time self)
    latencies hops total_lat actual bottleneck throughput_mbps ids.

(** [create_packet_metrics(packet_id, source_id, dest_id, path, size,
    creation_time)] *)
Definition create_packet_metrics (store : LinkStore) (pid src dst : string)
    (route : list string) (sz : Z) (created : Q) (self : t) : t :=
  let metrics :=
    calculate_metrics store
      (mkPacketMetrics pid src dst route sz "queued" created created 0
                       [] 0 0 0 0 0 []) in
  mk (link_metrics self) (<[pid := metrics]> (packet_metrics self))
     (total_packets_sent self + 1) (total_packets_delivered self)
     (total_packets_dropped self).

Definition set_sent (time : Q) (m : PacketMetrics) : PacketMetrics :=
  mkPacketMetrics (packet_id m) (source_node_id m) (destination_node_id m)
    (path_nodes m) (packet_size m) "in_transit" (creation_time m) time
    (delivery_time m) (path_latencies m) (hop_count m) (total_latency m)
    (actual_latency m) (bottleneck_bandwidth m) (throughput m) (link_ids m).

Definition set_delivered (time : Q) (m : PacketMetrics) : PacketMetrics :=
  mkPacketMetrics (packet_id m) (source_node_id m) (destination_node_id m)
    (path_nodes m) (packet_size m) "delivered" (creation_time m) (sent_time m)
    time (path_latencies m) (hop_count m) (total_latency m)
    (actual_latency m) (bottleneck_bandwidth m) (throughput m) (link_ids m).

Definition set_dropped (m : PacketMetrics) : PacketMetrics :=
  mkPacketMetrics (packet_id m) (source_node_id m) (destination_node_id m)
    (path_nodes m) (packet_size m) "dropped" (creation_time m) (sent_time m)
    (delivery_time m) (path_latencies m) (hop_count m) (total_latency m)
    (actual_latency m) (bottleneck_bandwidth m) (throughput m) (link_ids m).

(** [record_packet_sent(packet_id, sent_time)] *)
Definition record_packet_sent (pid : string) (time : Q) (self : t) : t :=
  match packet_metrics self !! pid with
  | Some m =>
      mk (link_metrics self) (<[pid := set_sent time m]> (packet_metrics self))
         (total_packets_sent self) (total_packets_delivered self)
         (total_packets_dropped self)
  | None => self
  end.

(** The body of the loop of [_update_link_metrics_for_packet] for one
    link id.  [link_ids] is non-empty only for a path of two or more
    nodes, so [hop_count] is not 0 in the division. *)
Definition count_delivery (m : PacketMetrics)
    (lms : gmap string LinkMetrics) (lid : string) : gmap string LinkMetrics :=
  match lms !! lid with
  | Some lm =>
      let transit :=
        if Py.gt (actual_latency m) 0
        then (total_transit_time lm + actual_latency m / inject_Z (hop_count m))%Q
        else total_transit_time lm in
      <[lid := mkLinkMetrics (lm_link_id lm) (lm_source_node_id lm)
                 (lm_dest_node_id lm) (lm_latency lm) (lm_bandwidth lm)
                 (packets_sent lm + 1) (packets_received lm + 1)
                 (total_bytes_transferred lm + packet_size m) transit]> lms
  | None => lms
  end.

(** [record_packet_delivery(packet_id, delivery_time)] *)
Definition record_packet_delivery (store : LinkStore) (pid : string)
    (time : Q) (self : t) : t :=
  match packet_metrics self !! pid with
  | Some m =>
      let m := calculate_metrics store (set_delivered time m) in
      mk (fold_left (count_delivery m) (link_ids m) (link_metrics self))
         (<[pid := m]> (packet_metrics self))
         (total_packets_sent self) (total_packets_delivered self + 1)
         (total_packets_dropped self)
  | None => self
  end.

(** [record_packet_drop(packet_id)] *)
Definition record_packet_drop (pid : string) (self : t) : t :=
  match packet_metrics self !! pid with
  | Some m =>
      mk (link_metrics self) (<[pid := set_dropped m]> (packet_metrics self))
         (total_packets_sent self) (total_packets_delivered self)
         (total_packets_dropped self + 1)
  | None => self
  end.

End LatencyThroughputEngine.

(** ** src/routing/router.py, section 2: the state of the path manager *)

Module PathManager.

Record PathInfo := mkPathInfo {
  source_id : string;
  destination_id : string;
  path_nodes : list string;
  hop_count : Z;
  total_latency : Q;
  bottleneck_bandwidth : Q;
  throughput : Q;
  links : list string;
  timestamp : Q
}.

Record t := mk {
  current_path : option PathInfo;
  path_history : list PathInfo
}.

Definition new : t := mk None [].

(** [get_current_path_nodes] *)
Definition get_current_path_nodes (self : t) : option (list string) :=
  path_nodes <$> current_path self.

End PathManager.

(** ** src/congestion.py, section 2: the state of the congestion controller *)

Module CongestionController.

Record DropRecord := mkDrop {
  drop_packet_id : string;
  drop_link_id : string;
  drop_time_ms : Q
}.

Record Event := mkEvent {
  event_link_id : string;
  event_type : string;
  cwnd : Q;
  event_time_ms : Q
}.

Record t := mk {
  link_queues : gmap string LinkQueue.t;
  congestion_windows : gmap string Q;
  drop_history : list DropRecord;
  congestion_events : list Event;
  total_packets_dropped : Z;
  enable_tcp_congestion : bool
}.

(** [__init__] *)
Definition new : t := mk ∅ ∅ [] [] 0 true.

Definition set_link_queue (lid : string) (q : LinkQueue.t) (self : t) : t :=
  mk (<[lid := q]> (link_queues self)) (congestion_windows self)
     (drop_history self) (congestion_events self)
     (total_packets_dropped self) (enable_tcp_congestion self).

Definition set_window (lid : string) (window : Q) (self : t) : t :=
  mk (link_queues self) (<[lid := window]> (congestion_windows self))
     (drop_history self) (congestion_events self)
     (total_packets_dropped self) (enable_tcp_congestion self).

(** [create_link_queue(link_id, capacity, drop_policy)] *)
Definition create_link_queue (lid : string) (capacity : Z)
    (policy : DropPolicy) (self : t) : t :=
  set_window lid (Py.float capacity)
    (set_link_queue lid (LinkQueue.new lid capacity policy) self).

(** [total_packets_dropped += 1] and [_record_drop(packet_id, link_id,
    time_ms)] *)
Definition count_drop (pid lid : string) (time : Q) (self : t) : t :=
  mk (link_queues self) (congestion_windows self)
     (drop_history self ++ [mkDrop pid lid time]) (congestion_events self)
     (total_packets_dropped self + 1) (enable_tcp_congestion self).

(** [_record_congestion_event(link_id, event_type, cwnd)]; [time] is the
    worker's [sim_time]. *)
Definition _record_congestion_event (lid kind : string) (window time : Q)
    (self : t) : t :=
  mk (link_queues self) (congestion_windows self) (drop_history self)
     (congestion_events self ++ [mkEvent lid kind window time])
     (total_packets_dropped self) (enable_tcp_congestion self).

(** [_handle_packet_drop(link_id)] *)
Definition _handle_packet_drop (lid : string) (time : Q) (self : t) : t :=
  match congestion_windows self !! lid with
  | Some window =>
      let window := Py.max 1 (window / 2) in
      _record_congestion_event lid "drop" window time
        (set_window lid window self)
  | None => self
  end.

(** [_handle_packet_success(link_id)]; [links[link_id]] raises [KeyError]
    for a link the network manager does not hold. *)
Definition _handle_packet_success (store : LinkStore) (lid : string)
    (self : t) : Outcome t :=
  match congestion_windows self !! lid with
  | Some window =>
      match Links.get lid store with
      | Some link =>
          let max_cwnd := Link.queue_size link in
          Return (set_window lid
                    (Py.min (Py.float max_cwnd) (window + (1 # 10))) self)
      | None => Raise (KeyError lid)
      end
  | None => Return self
  end.

End CongestionController.

(** ** src/congestion.py, section 3: the state of the packet manager *)

Module QueueAwarePacketManager.

Record t := mk {
  all_packets : list PacketRef;
  active_packets : gmap string PacketRef;
  queued_packets : gmap string (list PacketRef);
  delivered_packets : list PacketRef;
  dropped_packets : list PacketRef;
  packet_counter : Z
}.

Definition new : t := mk [] ∅ ∅ [] [] 0.

End QueueAwarePacketManager.

(** ** The simulator: all components and the store of packet objects *)

Record World := mkWorld {
  network_manager : NetworkManager.t;
  animator_worker : AnimatorWorker.t;
  congestion_controller : CongestionController.t;
  latency_engine : LatencyThroughputEngine.t;
  path_manager : PathManager.t;
  packet_manager : QueueAwarePacketManager.t;
  (** the packet objects, each at its address *)
  packets : list Packet.t
}.

Definition with_network_manager (f : NetworkManager.t → NetworkManager.t)
    (w : World) : World :=
  mkWorld (f (network_manager w)) (animator_worker w) (congestion_controller w)
          (latency_engine w) (path_manager w) (packet_manager w) (packets w).

Definition with_animator_worker (f : AnimatorWorker.t → AnimatorWorker.t)
    (w : World) : World :=
  mkWorld (network_manager w) (f (animator_worker w)) (congestion_controller w)
          (latency_engine w) (path_manager w) (packet_manager w) (packets w).

Definition with_congestion_controller
    (f : CongestionController.t → CongestionController.t) (w : World) : World :=
  mkWorld (network_manager w) (animator_worker w) (f (congestion_controller w))
          (latency_engine w) (path_manager w) (packet_manager w) (packets w).

Definition with_latency_engine
    (f : LatencyThroughputEngine.t → LatencyThroughputEngine.t) (w : World)
    : World :=
  mkWorld (network_manager w) (animator_worker w) (congestion_controller w)
          (f (latency_engine w)) (path_manager w) (packet_manager w) (packets w).

Definition with_path_manager (f : PathManager.t → PathManager.t) (w : World)
    : World :=
  mkWorld (network_manager w) (animator_worker w) (congestion_controller w)
          (latency_engine w) (f (path_manager w)) (packet_manager w) (packets w).

Definition with_packet_manager
    (f : QueueAwarePacketManager.t → QueueAwarePacketManager.t) (w : World)
    : World :=
  mkWorld (network_manager w) (animator_worker w) (congestion_controller w)
          (latency_engine w) (path_manager w) (f (packet_manager w)) (packets w).

Definition with_packets (f : list Packet.t → list Packet.t) (w : World) : World :=
  mkWorld (network_manager w) (animator_worker w) (congestion_controller w)
          (latency_engine w) (path_manager w) (packet_manager w) (f (packets w)).

(** A method call: it runs in a state of the simulator, returns or raises,
    and leaves a state.  A raised exception keeps the effects made before
    it. *)
Definition Call (A : Type) : Type := World → Outcome A * World.

Definition ret {A} (a : A) : Call A := λ w, (Return a, w).

Definition raise {A} (e : Exn) : Call A := λ w, (Raise e, w).

Definition bind {A B} (m : Call A) (k : A → Call B) : Call B :=
  λ w, match m w with
       | (Return a, w') => k a w'
       | (Raise e, w') => (Raise e, w')
       end.

Definition read {A} (f : World → A) : Call A := λ w, (Return (f w), w).

Definition update (f : World → World) : Call unit := λ w, (Return tt, f w).

Declare Scope call_scope.
Delimit Scope call_scope with call.
Notation "'let*' x := m 'in' k" := (bind m (λ x, k))
  (at level 10, x name, m at level 100, k at level 200, only parsing) : call_scope.
Notation "m ;;; k" := (bind m (λ _, k))
  (at level 100, k at level 200, right associativity, only parsing) : call_scope.

(** [sim_time] of the animation worker, the simulation clock. *)
Definition sim_time (w : World) : Q :=
  AnimatorWorker.sim_time (animator_worker w).

(** The packet object behind a reference. *)
Definition packet_at (pkt : PacketRef) : Call Packet.t :=
  λ w, match packets w !! pkt with
       | Some p => (Return p, w)
       | None => (Raise DanglingReference, w)
       end.

(** Mutation of the packet object behind a reference. *)
Definition mutate_packet (pkt : PacketRef) (f : Packet.t → Packet.t)
    (w : World) : World :=
  with_packets (alter f pkt) w.

Definition update_packet (pkt : PacketRef) (f : Packet.t → Packet.t) : Call unit :=
  update (mutate_packet pkt f).

(** The link object behind a reference. *)
Definition link_at (link : string) : Call Link.t :=
  λ w, match Links.get link (NetworkManager.links (network_manager w)) with
       | Some l => (Return l, w)
       | None => (Raise DanglingReference, w)
       end.

(** Mutation of the link object behind a reference. *)
Definition mutate_link (link : string) (f : Link.t → Link.t) (w : World) : World :=
  with_network_manager (λ nm,
    match Links.get link (NetworkManager.links nm) with
    | Some l => NetworkManager.set_links
                  (Links.put link (f l) (NetworkManager.links nm)) nm
    | None => nm
    end) w.

Definition update_link (link : string) (f : Link.t → Link.t) : Call unit :=
  update (mutate_link link f).

(** [network_manager.nodes[node_id]] *)
Definition node_at (node_id : string) : Call Node.t :=
  λ w, match NetworkManager.nodes (network_manager w) !! node_id with
       | Some n => (Return n, w)
       | None => (Raise (KeyError node_id), w)
       end.

(** ** src/congestion.py, section 2: admission through the controller *)

Section Admission.
Local Open Scope call_scope.
Import CongestionController.

(** [CongestionController.process_packet_on_link(packet, link,
    current_time)]; [draw] is the generator's draw for a random drop. *)
Definition process_packet_on_link (pkt : PacketRef) (link : string)
    (current_time : Q) (draw : nat) : Call bool :=
  let* l := link_at link in
  let* cc := read congestion_controller in
  match link_queues cc !! Link.id l with
  | None => ret true
  | Some queue =>
      let '(queue, accepted) := LinkQueue.enqueue queue pkt current_time draw in
      update (with_congestion_controller (set_link_queue (Link.id l) queue)) ;;;
      if negb accepted then
        let* p := packet_at pkt in
        update (with_congestion_controller
                  (count_drop (Packet.id p) (Link.id l) current_time)) ;;;
        update_link link Link.update_queue_color ;;;
        (if enable_tcp_congestion cc then
           let* now := read sim_time in
           update (with_congestion_controller
                     (_handle_packet_drop (Link.id l) now))
         else ret tt) ;;;
        ret accepted
      else
        update_link link (Link.set_current_queue (LinkQueue.get_size queue)) ;;;
        update_link link Link.update_queue_color ;;;
        (if enable_tcp_congestion cc then
           let* store := read (λ w, NetworkManager.links (network_manager w)) in
           let* cc := read congestion_controller in
           match _handle_packet_success store (Link.id l) cc with
           | Return cc => update (with_congestion_controller (λ _, cc))
           | Raise e => raise e
           end
         else ret tt) ;;;
        ret accepted
  end.

(** [CongestionController.dequeue_packet(link, current_time)] *)
Definition dequeue_packet (link : string) (current_time : Q)
    : Call (option (PacketRef * Q)) :=
  let* l := link_at link in
  let* cc := read congestion_controller in
  match link_queues cc !! Link.id l with
  | None => ret None
  | Some queue =>
      let '(queue, result) := LinkQueue.dequeue queue current_time in
      update (with_congestion_controller (set_link_queue (Link.id l) queue)) ;;;
      match result with
      | Some _ =>
          update_link link (Link.set_current_queue (LinkQueue.get_size queue)) ;;;
          update_link link Link.update_queue_color ;;;
          ret result
      | None => ret result
      end
  end.

End Admission.

(** ** src/routing/router.py, section 2: [PathManager.set_path] *)

Section Routing.
Local Open Scope call_scope.
Variable shortest_path : ShortestPath.

(** [PathManager.set_path(source_id, dest_id)].  The router's graph is
    first replaced by the network manager's.  [ValueError] and
    [NetworkXError] are caught (and printed); any other exception
    propagates. *)
Definition set_path (source_id dest_id : string) : Call bool :=
  let* nm := read network_manager in
  match DijkstraRouter.compute_shortest_path shortest_path
          (NetworkManager.graph nm) source_id dest_id "latency" with
  | Return None =>
      update (with_path_manager (λ pm,
        PathManager.mk None (PathManager.path_history pm))) ;;;
      ret false
  | Return (Some path_nodes) =>
      let path_dict :=
        DijkstraRouter.get_path_info (NetworkManager.graph nm) path_nodes
          (Some (NetworkManager.links nm)) in
      let info :=
        PathManager.mkPathInfo source_id dest_id path_nodes
          (DijkstraRouter.hop_count path_dict)
          (DijkstraRouter.total_latency path_dict)
          (DijkstraRouter.bottleneck_bandwidth path_dict)
          (DijkstraRouter.throughput path_dict)
          (DijkstraRouter.links path_dict) 0 in
      update (with_path_manager (λ pm,
        PathManager.mk (Some info) (PathManager.path_history pm ++ [info]))) ;;;
      ret true
  | Raise (ValueError _) | Raise (NetworkXError _) =>
      update (with_path_manager (λ pm,
        PathManager.mk None (PathManager.path_history pm))) ;;;
      ret false
  | Raise e => raise e
  end.

End Routing.

(** ** src/congestion.py, section 3: [QueueAwarePacketManager] *)

Section PacketManager.
Local Open Scope call_scope.
Import QueueAwarePacketManager.
Variable shortest_path : ShortestPath.

(** [drop_packet(packet)] *)
Definition drop_packet (pkt : PacketRef) : Call unit :=
  update_packet pkt (Packet.set_state DROPPED) ;;;
  update_packet pkt Packet.mark_dropped ;;;
  let* p := packet_at pkt in
  update (with_latency_engine
            (LatencyThroughputEngine.record_packet_drop (Packet.id p))) ;;;
  update (with_packet_manager (λ pm,
    mk (all_packets pm) (delete (Packet.id p) (active_packets pm))
       (queued_packets pm) (delivered_packets pm)
       (dropped_packets pm ++ [pkt]) (packet_counter pm))) ;;;
  update (with_animator_worker (AnimatorWorker.remove_packet (Packet.id p))).

(** [create_packet(source_id, dest_id, size)]: the reference of the new
    packet object, or [None]. *)
Definition create_packet (source_id dest_id : string) (size : Z)
    : Call (option PacketRef) :=
  let* nm := read network_manager in
  if negb (bool_decide (is_Some (NetworkManager.nodes nm !! source_id)))
     || negb (bool_decide (is_Some (NetworkManager.nodes nm !! dest_id)))
  then ret None
  else if String.eqb source_id dest_id then ret None
  else
    update (with_packet_manager (λ pm,
      mk (all_packets pm) (active_packets pm) (queued_packets pm)
         (delivered_packets pm) (dropped_packets pm) (packet_counter pm + 1))) ;;;
    let* counter := read (λ w, packet_counter (packet_manager w)) in
    let packet_id := ("PKT" ++ Py.format_04d counter)%string in
    let* current_time := read sim_time in
    let* found := set_path shortest_path source_id dest_id in
    if negb found then ret None
    else
      let* current := read (λ w, PathManager.get_current_path_nodes (path_manager w)) in
      (* [set_path] has just stored a path, so [current] is not [None] *)
      let path_nodes := default [] current in
      let packet :=
        Packet.set_current_node_id source_id
          (Packet.new packet_id source_id dest_id current_time current_time
                      size path_nodes QUEUED) in
      let* pkt := read (λ w, length (packets w)) in
      update (with_packets (λ store, store ++ [packet])) ;;;
      update (with_packet_manager (λ pm,
        mk (all_packets pm ++ [pkt]) (<[packet_id := pkt]> (active_packets pm))
           (queued_packets pm) (delivered_packets pm) (dropped_packets pm)
           (packet_counter pm))) ;;;
      let* store := read (λ w, NetworkManager.links (network_manager w)) in
      update (with_latency_engine
                (LatencyThroughputEngine.create_packet_metrics store packet_id
                   source_id dest_id path_nodes size current_time)) ;;;
      ret (Some pkt).

(** [start_packet_animation(packet)] *)
Definition start_packet_animation (pkt : PacketRef) (draw : nat) : Call bool :=
  let* p := packet_at pkt in
  match Packet.path p with
  | node_a_id :: node_b_id :: _ =>
      let* store := read (λ w, NetworkManager.links (network_manager w)) in
      match Links.get_link_by_nodes node_a_id node_b_id store with
      | None => drop_packet pkt ;;; ret false
      | Some (link, l) =>
          let* now := read sim_time in
          let* accepted := process_packet_on_link pkt link now draw in
          if negb accepted then drop_packet pkt ;;; ret false
          else
            let* node_a := node_at node_a_id in
            let* node_b := node_at node_b_id in
            update_packet pkt (λ p,
              Packet.set_link_latency (Link.latency l)
                (Packet.set_current_link_index 0
                   (Packet.set_state IN_TRANSIT p))) ;;;
            let* now := read sim_time in
            update (with_latency_engine
                      (LatencyThroughputEngine.record_packet_sent (Packet.id p) now)) ;;;
            update (with_animator_worker
                      (AnimatorWorker.add_packet (Packet.id p) pkt
                         (Node.get_position node_a) (Node.get_position node_b)
                         (Link.latency l))) ;;;
            ret true
      end
  | _ => drop_packet pkt ;;; ret false
  end.

(** [advance_packet(packet)] *)
Definition advance_packet (pkt : PacketRef) (draw : nat) : Call bool :=
  let* current_time := read sim_time in
  let* p := packet_at pkt in
  let '(moved, reached) := Packet.move_to_next_link current_time p in
  update_packet pkt (λ _, moved) ;;;
  if reached then
    update_packet pkt (Packet.mark_delivered current_time) ;;;
    let* store := read (λ w, NetworkManager.links (network_manager w)) in
    update (with_latency_engine
              (LatencyThroughputEngine.record_packet_delivery store
                 (Packet.id p) current_time)) ;;;
    update (with_packet_manager (λ pm,
      mk (all_packets pm) (delete (Packet.id p) (active_packets pm))
         (queued_packets pm) (delivered_packets pm ++ [pkt])
         (dropped_packets pm) (packet_counter pm))) ;;;
    ret true
  else
    match Packet.path moved !! Packet.path_index moved,
          Packet.path moved !! S (Packet.path_index moved) with
    | Some node_a_id, Some node_b_id =>
        let* store := read (λ w, NetworkManager.links (network_manager w)) in
        match Links.get_link_by_nodes node_a_id node_b_id store with
        | None => ret false
        | Some (link, l) =>
            let* accepted := process_packet_on_link pkt link current_time draw in
            if negb accepted then drop_packet pkt ;;; ret false
            else
              let* node_a := node_at node_a_id in
              let* node_b := node_at node_b_id in
              update_packet pkt (Packet.set_link_latency (Link.latency l)) ;;;
              update (with_animator_worker
                        (AnimatorWorker.add_packet (Packet.id p) pkt
                           (Node.get_position node_a) (Node.get_position node_b)
                           (Link.latency l))) ;;;
              ret false
        end
    | _, _ => ret false
    end.

End PacketManager.

(** ** Histories, invariants and sample data used by the properties *)

(** A call of one of the two queue operations, with its arguments. *)
Inductive QueueOp :=
| Enqueue (pkt : PacketRef) (current_time : Q) (draw : nat)
| Dequeue (current_time : Q).

Definition run_op (self : LinkQueue.t) (op : QueueOp) : LinkQueue.t :=
  match op with
  | Enqueue pkt now draw => (LinkQueue.enqueue self pkt now draw).1
  | Dequeue now => (LinkQueue.dequeue self now).1
  end.

(** The queue after a finite sequence of calls, oldest call first. *)
Definition run (self : LinkQueue.t) (ops : list QueueOp) : LinkQueue.t :=
  fold_left run_op ops self.

(** The counters of a queue account for its length. *)
Definition conserved (self : LinkQueue.t) : Prop :=
  (LinkQueue.get_size self
   = LinkQueue.packets_enqueued self - LinkQueue.packets_dequeued self
     - LinkQueue.packets_dropped self)%Z.

Definition within_capacity (self : LinkQueue.t) : Prop :=
  (0 ≤ LinkQueue.get_size self ≤ LinkQueue.capacity self)%Z.

(** What the outside does to the controller of one simulator: an admission
    attempt, a departure from a link's queue, or an advance of the clock. *)
Inductive ControllerEvent :=
| Admission (pkt : PacketRef) (link : string) (current_time : Q) (draw : nat)
| Depart (link : string) (current_time : Q)
| Tick (now : Q).

Definition set_sim_time (now : Q) (aw : AnimatorWorker.t) : AnimatorWorker.t :=
  AnimatorWorker.mk (AnimatorWorker.active_packets aw)
    (AnimatorWorker.animators aw) (AnimatorWorker.speed_multiplier aw) now.

Definition run_event (w : World) (e : ControllerEvent) : World :=
  match e with
  | Admission pkt link now draw => (process_packet_on_link pkt link now draw w).2
  | Depart link now => (dequeue_packet link now w).2
  | Tick now => with_animator_worker (set_sim_time now) w
  end.

(** The simulator after a history of events, oldest first. *)
Definition run_history (w : World) (history : list ControllerEvent) : World :=
  fold_left run_event history w.

(** The congestion window of a link. *)
Definition window (w : World) (lid : string) : option Q :=
  CongestionController.congestion_windows (congestion_controller w) !! lid.



(** *** Sample data *)

Definition sample_item (pkt : PacketRef) (at_time : Q) : LinkQueue.Item :=
  LinkQueue.mkItem pkt at_time.

(** A capacity-1 queue of link [L1] already holding packet 0, enqueued at
    time 5, under the given policy. *)
Definition sample_full_queue (policy : DropPolicy) : LinkQueue.t :=
  (LinkQueue.enqueue (LinkQueue.new "L1" 1 policy) 0%nat 5%Q 0).1.

(** Three arrivals at a queue and one departure. *)
Definition sample_ops : list QueueOp :=
  [Enqueue 0%nat 0%Q 0%nat; Enqueue 1%nat 1%Q 0%nat;
   Enqueue 2%nat 2%Q 1%nat; Dequeue 3%Q].

(** The chain N1 - N2 - N3 and the isolated node N4.  Link L1 joins N1 and
    N2 (latency 5, bandwidth 100, queue size 2), link L2 joins N2 and N3
    (latency 7, bandwidth 50, queue size 1). *)
Definition sample_network : NetworkManager.t :=
  NetworkManager.update_networkx_graph
    (NetworkManager.mk
       (list_to_map
          [("N1", Node.mk "N1" "Node1" 100 100); ("N2", Node.mk "N2" "Node2" 200 100);
           ("N3", Node.mk "N3" "Node3" 300 100); ("N4", Node.mk "N4" "Node4" 400 100)]%string)
       [("L1", Link.mk "L1" "N1" "N2" 5 100 2 0 0 "black");
        ("L2", Link.mk "L2" "N2" "N3" 7 50 1 0 0 "black")]%string
       ∅).

(** The simulator on the sample network before any link queue exists, with
    one packet object. *)
Definition sample_world : World :=
  mkWorld sample_network AnimatorWorker.new CongestionController.new
    LatencyThroughputEngine.new PathManager.new QueueAwarePacketManager.new
    [Packet.new "PKT0001" "N1" "N3" 0 0 1000 ["N1"; "N2"; "N3"]%string QUEUED].

Definition sample_history : list ControllerEvent :=
  [Admission 0%nat "L1" 0%Q 0%nat; Tick 1%Q; Admission 0%nat "L1" 1%Q 0%nat;
   Admission 0%nat "L1" 1%Q 0%nat; Depart "L1" 2%Q].

(** *** Paths and their links *)

(** The latency and bandwidth of each consecutive link of a path, in path
    order; [None] when two consecutive nodes are not joined by an edge that
    carries both attributes. *)
Fixpoint links_along (g : Graph.t) (path : list string) : option (list (Q * Q)) :=
  match path with
  | a :: (b :: _) as rest =>
      match Graph.get_edge_data g a b with
      | Some d =>
          match Graph.weight d, Graph.bandwidth d, links_along g rest with
          | Some lat, Some bw, Some ls => Some ((lat, bw) :: ls)
          | _, _, _ => None
          end
      | None => None
      end
  | _ => Some []
  end.

(** The sum of a list of latencies. *)
Definition Qsum (l : list Q) : Q := foldr Qplus 0%Q l.

(** A depth-first search for a walk from [u] to [target] that avoids the
    nodes of [visited], at most [fuel] nodes long. *)
Fixpoint search (g : Graph.t) (fuel : nat) (visited : list string)
    (u target : string) : option (list string) :=
  match fuel with
  | O => None
  | S fuel =>
      if String.eqb u target then Some [u]
      else
        (fix try (nbrs : list string) : option (list string) :=
           match nbrs with
           | [] => None
           | v :: nbrs =>
               if bool_decide (v ∈ u :: visited) then try nbrs
               else match search g fuel (u :: visited) v target with
                    | Some p => Some (u :: p)
                    | None => try nbrs
                    end
           end)
          (map_to_list (default ∅ (g !! u))).*1
  end.

(** A stand-in for the library's search on sample data: it raises
    [NodeNotFound] for an endpoint that is not in the graph and
    [NetworkXNoPath] when it finds no walk.  (It returns some walk, not a
    cheapest one.) *)
Definition sample_shortest_path : ShortestPath :=
  λ g source target _,
    if negb (Graph.has_node g source) then Raise (NodeNotFound source)
    else if negb (Graph.has_node g target) then Raise (NodeNotFound target)
    else match search g (size g) [] source target with
         | Some p => Return p
         | None => Raise NetworkXNoPath
         end.

(** Every neighbour of a node of [component] is in [component]. *)
Definition closed_under (g : Graph.t) (component : list string) : bool :=
  forallb
    (λ x, forallb (λ y, bool_decide (y ∈ component))
                  (map_to_list (default ∅ (g !! x))).*1)
    component.

(** The state of the packet object behind a reference. *)
Definition state_of (w : World) (pkt : PacketRef) : option PacketState :=
  Packet.state <$> packets w !! pkt.

(** The sample simulator once the queues of its two links exist, as the
    main window creates them on a topology change (tail drop). *)
Definition sample_simulator : World :=
  with_congestion_controller
    (λ cc, CongestionController.create_link_queue "L2" 1 TAIL_DROP
             (CongestionController.create_link_queue "L1" 2 TAIL_DROP cc))
    (with_packets (λ _, []) sample_world).

(** The packet object that [create_packet] makes for N1 -> N3 on the sample
    simulator. *)
Definition sample_packet : Packet.t :=
  Packet.new "PKT0001" "N1" "N3" 0 0 1000 ["N1"; "N2"; "N3"]%string QUEUED.

(** The sample simulator after [create_packet("N1", "N3", 1000)]; the new
    packet has reference 0. *)
Definition sample_created : World :=
  (create_packet sample_shortest_path "N1" "N3" 1000 sample_simulator).2.

(** ... and after [start_packet_animation] and two calls of
    [advance_packet] on that packet, which deliver it. *)
Definition sample_delivered : World :=
  (advance_packet 0 0
     (advance_packet 0 0 (start_packet_animation 0 0 sample_created).2).2).2.

(** ** Further harness definitions: batches of queue calls *)

(** The [enqueue] calls for a list of arrivals (packet and arrival time),
    oldest first, all with the same generator draw: the queue after them
    and the results of the calls. *)
Fixpoint arrive (self : LinkQueue.t) (arrivals : list (PacketRef * Q))
    (draw : nat) : LinkQueue.t * list bool :=
  match arrivals with
  | [] => (self, [])
  | (pkt, at_time) :: rest =>
      let '(self, accepted) := LinkQueue.enqueue self pkt at_time draw in
      let '(self, results) := arrive self rest draw in
      (self, accepted :: results)
  end.

(** Up to [n] calls of [dequeue(now)], stopping at the first empty result:
    the queue after them and the tuples returned. *)
Fixpoint serve (self : LinkQueue.t) (now : Q) (n : nat)
    : LinkQueue.t * list (PacketRef * Q) :=
  match n with
  | O => (self, [])
  | S n =>
      match LinkQueue.dequeue self now with
      | (self, Some result) =>
          let '(self, results) := serve self now n in
          (self, result :: results)
      | (self, None) => (self, [])
      end
  end.

(** What [dequeue(now)] returns for a queued item. *)
Definition served (now : Q) (item : LinkQueue.Item) : PacketRef * Q :=
  (LinkQueue.packet item, (now - LinkQueue.enqueue_time item)%Q).

(** [n] calls of [move_to_next_link(now)] on a packet. *)
Fixpoint hops (n : nat) (now : Q) (p : Packet.t) : Packet.t :=
  match n with
  | O => p
  | S n => hops n now (Packet.move_to_next_link now p).1
  end.

(** ** src/congestion.py, section 2: reports and reset of the controller *)

Module CongestionReports.

(** The dict returned by [get_statistics]. *)
Record Statistics := mkStatistics {
  total_dropped : Z;
  total_enqueued : Z;
  drop_rate : Q;
  avg_queue_depth : Q;
  congestion_events : Z
}.

(** [sum(f(q) for q in self.link_queues.values())] *)
Definition sum_over_queues (f : LinkQueue.t → Z)
    (queues : gmap string LinkQueue.t) : Z :=
  foldr Z.add 0%Z (f <$> (map_to_list queues).*2).

(** [CongestionController.get_statistics()] *)
Definition get_statistics (self : CongestionController.t) : Statistics :=
  let queues := CongestionController.link_queues self in
  let dropped := sum_over_queues LinkQueue.packets_dropped queues in
  let enqueued := sum_over_queues LinkQueue.packets_enqueued queues in
  let rate :=
    if (0 <? enqueued)%Z
    then (inject_Z dropped / inject_Z enqueued * 100)%Q
    else 0%Q in
  let depth :=
    if bool_decide (queues = ∅) then 0%Q
    else (inject_Z (sum_over_queues LinkQueue.get_size queues)
          / inject_Z (Z.of_nat (size queues)))%Q in
  mkStatistics dropped enqueued rate depth
    (Z.of_nat (length (CongestionController.congestion_events self))).

(** [CongestionController.get_link_queue(link_id)] *)
Definition get_link_queue (self : CongestionController.t) (lid : string)
    : option LinkQueue.t :=
  CongestionController.link_queues self !! lid.

(** [CongestionController.clear_all()] *)
Definition clear_all (self : CongestionController.t) : CongestionController.t :=
  CongestionController.mk
    (LinkQueue.clear <$> CongestionController.link_queues self)
    (CongestionController.congestion_windows self) [] [] 0
    (CongestionController.enable_tcp_congestion self).

End CongestionReports.

(** *** Invariants of the controller used by the further properties *)

(** Every queue of the controller has dropped no more packets than were
    offered to it. *)
Definition counters_sane (cc : CongestionController.t) : Prop :=
  map_Forall
    (λ _ q, (0 ≤ LinkQueue.packets_dropped q ≤ LinkQueue.packets_enqueued q)%Z)
    (CongestionController.link_queues cc).

(** Every link object is stored under its own id. *)
Definition keyed_by_id (store : LinkStore) : Prop :=
  ∀ key l, Links.get key store = Some l → Link.id l = key.

(** The link's [current_queue] is the length of the link's queue. *)
Definition queue_mirrored (lid : string) (w : World) : Prop :=
  ∀ l q,
    Links.get lid (NetworkManager.links (network_manager w)) = Some l →
    CongestionController.link_queues (congestion_controller w) !! lid = Some q →
    Link.current_queue l = LinkQueue.get_size q.

(** *** Link stores without parallel links *)

(** No two links of the store join the same pair of nodes (what [add_link]
    refuses to create). *)
Fixpoint no_parallel_links (store : LinkStore) : Prop :=
  match store with
  | [] => True
  | (_, l) :: rest =>
      Forall (λ entry, Link.joins (Link.node_a l) (Link.node_b l) entry.2 = false)
             rest
      ∧ no_parallel_links rest
  end.

(** The attribute dict [update_networkx_graph] gives the edge of a link. *)
Definition edge_of (l : Link.t) : Graph.EdgeData :=
  Graph.mkEdge (Some (Link.latency l)) (Some (Link.bandwidth l)) (Some (Link.id l)).

(** *** Queues that were not drained *)

(** Every queue of [before] is still there in [after], no shorter and with
    the same number of departures. *)
Definition not_drained (before after : CongestionController.t) : Prop :=
  ∀ lid q,
    CongestionController.link_queues before !! lid = Some q →
    ∃ q',
      CongestionController.link_queues after !! lid = Some q'
      ∧ (LinkQueue.get_size q ≤ LinkQueue.get_size q')%Z
      ∧ LinkQueue.packets_dequeued q' = LinkQueue.packets_dequeued q.

(** *** Links along a path in the link store *)

(** The link objects that [get_link_by_nodes] finds for the consecutive
    pairs of a path, in path order (pairs without a link are skipped). *)
Definition links_on_path (store : LinkStore) (path : list string) : list Link.t :=
  omap (λ '(a, b), snd <$> Links.get_link_by_nodes a b store) (consecutive path).

(** How often a link id occurs in a list of ids. *)
Definition occurrences (lid : string) (ids : list string) : nat :=
  length (filter (λ x, x = lid) ids).

(** ** src/latency.py: [LatencyThroughputEngine.create_link_metrics] *)

(** [create_link_metrics(link_id, source_id, dest_id, latency, bandwidth)] *)
Definition create_link_metrics (lid src dst : string) (latency bandwidth : Q)
    (self : LatencyThroughputEngine.t) : LatencyThroughputEngine.t :=
  LatencyThroughputEngine.mk
    (<[lid := LatencyThroughputEngine.mkLinkMetrics lid src dst latency
                bandwidth 0 0 0 0]>
       (LatencyThroughputEngine.link_metrics self))
    (LatencyThroughputEngine.packet_metrics self)
    (LatencyThroughputEngine.total_packets_sent self)
    (LatencyThroughputEngine.total_packets_delivered self)
    (LatencyThroughputEngine.total_packets_dropped self).

(** The latency engine that tracks link L1 of the sample network. *)
Definition sample_engine : LatencyThroughputEngine.t :=
  create_link_metrics "L1" "N1" "N2" 5 100 LatencyThroughputEngine.new.

(** ** Properties of the link queue *)

Section LinkQueueFacts.
Import LinkQueue.

Lemma run_snoc self ops op : run self (ops ++ [op]) = run_op (run self ops) op.
Proof. unfold run. by rewrite fold_left_app. Qed.

Lemma randint_range n draw : Py.randint 0 (S n - 1) draw < S n.
Proof.
  unfold Py.randint. simpl. rewrite Nat.sub_0_r.
  replace (n - 0 + 1) with (S n) by lia.
  apply Nat.mod_upper_bound. lia.
Qed.

Lemma length_delete_lt {A} (l : list A) i :
  i < length l → length (delete i l) = length l - 1.
Proof.
  revert i. induction l as [|x l IH]; intros [|i] Hi; simpl in *; try lia.
  rewrite IH by lia. lia.
Qed.

End LinkQueueFacts.

Section LinkQueueProps.
Import LinkQueue.

Lemma enqueue_capacity self pkt now draw :
  capacity (fst (enqueue self pkt now draw)) = capacity self.
Proof.
  unfold enqueue. simpl.
  destruct (_ <? _)%Z; [done|].
  destruct (drop_policy self); simpl; [done| |]; by destruct (queue self).
Qed.

Lemma dequeue_capacity self now :
  capacity (fst (dequeue self now)) = capacity self.
Proof. unfold dequeue. by destruct (queue self). Qed.

Lemma enqueue_size self pkt now draw :
  get_size (fst (enqueue self pkt now draw))
  = (if is_full self then get_size self else get_size self + 1)%Z.
Proof.
  unfold enqueue, is_full, get_size. simpl.
  destruct (Z.ltb_spec (Z.of_nat (length (queue self))) (capacity self)) as [Hlt|Hge];
    destruct (Z.leb_spec (capacity self) (Z.of_nat (length (queue self)))); try lia.
  - simpl. rewrite length_app. simpl. lia.
  - destruct (drop_policy self); simpl; [done| |].
    + destruct (queue self) as [|x rest] eqn:Hq; simpl; rewrite ?Hq; [done|].
      rewrite length_app. simpl. lia.
    + destruct (queue self) as [|x rest] eqn:Hq; simpl; rewrite ?Hq; [done|].
      rewrite length_app, length_delete_lt by apply randint_range.
      simpl. lia.
Qed.

Lemma enqueue_within self pkt now draw :
  (1 ≤ capacity self)%Z → within_capacity self →
  within_capacity (fst (enqueue self pkt now draw)).
Proof.
  unfold within_capacity. intros Hc Hw.
  rewrite enqueue_size, enqueue_capacity. unfold is_full.
  destruct (Z.leb_spec (capacity self) (get_size self)); lia.
Qed.

Lemma dequeue_within self now :
  within_capacity self → within_capacity (fst (dequeue self now)).
Proof.
  unfold within_capacity, dequeue, get_size.
  destruct (queue self) eqn:Hq; simpl; rewrite ?Hq; simpl; lia.
Qed.

Lemma utilization_unit self :
  (1 ≤ capacity self)%Z → within_capacity self →
  (0 <= get_utilization self <= 1)%Q.
Proof.
  unfold within_capacity, get_utilization. intros Hc [H0 Hle].
  destruct (Z.eqb_spec (capacity self) 0) as [|_]; [lia|].
  assert (Hpos : (0 < inject_Z (capacity self))%Q)
    by (change 0%Q with (inject_Z 0); rewrite <- Zlt_Qlt; lia).
  split.
  - apply Qle_shift_div_l; [done|]. rewrite Qmult_0_l.
    change 0%Q with (inject_Z 0). rewrite <- Zle_Qle. lia.
  - apply Qle_shift_div_r; [done|]. rewrite Qmult_1_l.
    rewrite <- Zle_Qle. lia.
Qed.

Lemma enqueue_effect self pkt now draw :
  packets_enqueued (enqueue self pkt now draw).1 = (packets_enqueued self + 1)%Z
  ∧ packets_dequeued (enqueue self pkt now draw).1 = packets_dequeued self
  ∧ packets_dropped (enqueue self pkt now draw).1
    = (packets_dropped self + (if is_full self then 1 else 0))%Z
  ∧ (enqueue self pkt now draw).2
    = (if is_full self
       then match drop_policy self with TAIL_DROP => false | _ => true end
       else true).
Proof.
  unfold enqueue, is_full, get_size. simpl.
  destruct (Z.ltb_spec (Z.of_nat (length (queue self))) (capacity self));
    destruct (Z.leb_spec (capacity self) (Z.of_nat (length (queue self))));
    try lia; simpl.
  - split_and!; [done | done | lia | done].
  - destruct (drop_policy self); simpl; [done| |];
      destruct (queue self) eqn:Hq; simpl; rewrite ?Hq; done.
Qed.

End LinkQueueProps.

Section LinkQueueClaims.
Import LinkQueue.

(** C1 (as amended): every call of [enqueue] increments [packets_enqueued]
    by exactly 1.  On a queue that is not full the packet is accepted and
    [packets_dropped] is unchanged.  On a full queue [packets_dropped] is
    incremented by exactly 1 under all three policies: tail drop returns
    not-accepted, head drop and random drop return accepted. *)
Theorem enqueue_counters self pkt now draw :
  packets_enqueued (enqueue self pkt now draw).1 = (packets_enqueued self + 1)%Z
  ∧ packets_dropped (enqueue self pkt now draw).1
    = (packets_dropped self + (if is_full self then 1 else 0))%Z
  ∧ (enqueue self pkt now draw).2
    = (if is_full self
       then match drop_policy self with TAIL_DROP => false | _ => true end
       else true).
Proof.
  destruct (enqueue_effect self pkt now draw) as (He & _ & Hd & Hr). done.
Qed.

(** C1, the claim as stated fails: on a full head-drop queue and on a full
    random-drop queue the call is accepted and [packets_dropped] changes. *)
Lemma eviction_increments_packets_dropped :
  is_full (sample_full_queue HEAD_DROP) = true
  ∧ snd (enqueue (sample_full_queue HEAD_DROP) 1%nat 6%Q 0) = true
  ∧ packets_dropped (sample_full_queue HEAD_DROP) = 0%Z
  ∧ packets_dropped (fst (enqueue (sample_full_queue HEAD_DROP) 1%nat 6%Q 0)) = 1%Z
  ∧ is_full (sample_full_queue RANDOM_DROP) = true
  ∧ snd (enqueue (sample_full_queue RANDOM_DROP) 1%nat 6%Q 0) = true
  ∧ packets_dropped (sample_full_queue RANDOM_DROP) = 0%Z
  ∧ packets_dropped (fst (enqueue (sample_full_queue RANDOM_DROP) 1%nat 6%Q 0)) = 1%Z.
Proof. by vm_compute. Qed.

(** C5: under tail drop, [enqueue] on a full queue returns not-accepted,
    leaves the queue's contents and length unchanged and increments
    [packets_dropped] by exactly 1. *)
Theorem tail_drop_full_rejects self pkt now draw :
  drop_policy self = TAIL_DROP →
  get_size self = capacity self →
  snd (enqueue self pkt now draw) = false
  ∧ queue (fst (enqueue self pkt now draw)) = queue self
  ∧ get_size (fst (enqueue self pkt now draw)) = get_size self
  ∧ packets_dropped (fst (enqueue self pkt now draw))
    = (packets_dropped self + 1)%Z.
Proof.
  intros Hpol Hfull. unfold enqueue, get_size in *. simpl.
  destruct (Z.ltb_spec (Z.of_nat (length (queue self))) (capacity self)); [lia|].
  rewrite Hpol. done.
Qed.

Lemma tail_drop_full_rejects_witness :
  snd (enqueue (sample_full_queue TAIL_DROP) 1%nat 6%Q 0) = false
  ∧ queue (fst (enqueue (sample_full_queue TAIL_DROP) 1%nat 6%Q 0))
    = [sample_item 0%nat 5%Q]
  ∧ get_size (fst (enqueue (sample_full_queue TAIL_DROP) 1%nat 6%Q 0)) = 1%Z
  ∧ packets_dropped (fst (enqueue (sample_full_queue TAIL_DROP) 1%nat 6%Q 0))
    = 1%Z.
Proof.
  apply (tail_drop_full_rejects (sample_full_queue TAIL_DROP) 1%nat 6%Q 0);
    reflexivity.
Defined.

(** C6 (as amended): on an empty queue [dequeue now] returns the empty
    result and changes nothing.  On a non-empty queue it removes the oldest
    item and returns its packet with [queuing_delay = now - enqueue_time],
    adds that delay to [total_queue_delay] and increments
    [packets_dequeued] by 1; the delay is non-negative whenever [now] is
    not earlier than the item's enqueue time. *)
Theorem dequeue_oldest self now :
  (queue self = [] → dequeue self now = (self, None))
  ∧ (∀ item rest, queue self = item :: rest →
       snd (dequeue self now)
       = Some (packet item, (now - enqueue_time item)%Q)
       ∧ queue (fst (dequeue self now)) = rest
       ∧ total_queue_delay (fst (dequeue self now))
         = (total_queue_delay self + (now - enqueue_time item))%Q
       ∧ packets_dequeued (fst (dequeue self now))
         = (packets_dequeued self + 1)%Z
       ∧ packets_enqueued (fst (dequeue self now)) = packets_enqueued self
       ∧ packets_dropped (fst (dequeue self now)) = packets_dropped self
       ∧ ((enqueue_time item <= now)%Q → (0 <= now - enqueue_time item)%Q)).
Proof.
  unfold dequeue. split.
  - by intros ->.
  - intros item rest ->. simpl. split_and!; try done.
    intros Hle. lra.
Qed.

Lemma dequeue_oldest_witness :
  dequeue (new "L1" 1 TAIL_DROP) 7%Q = (new "L1" 1 TAIL_DROP, None)
  ∧ snd (dequeue (sample_full_queue TAIL_DROP) 7%Q)
    = Some (0%nat, (7 - 5)%Q)
  ∧ (0 <= 7 - 5)%Q.
Proof.
  pose proof (dequeue_oldest (new "L1" 1 TAIL_DROP) 7%Q) as [Hempty _].
  pose proof (dequeue_oldest (sample_full_queue TAIL_DROP) 7%Q) as [_ Hfull].
  destruct (Hfull (sample_item 0%nat 5%Q) [] eq_refl)
    as (Hres & _ & _ & _ & _ & _ & Hpos).
  split; [apply Hempty; reflexivity|]. split; [exact Hres|].
  apply Hpos. unfold Qle. simpl. lia.
Defined.

(** C6, the claim as stated fails: a packet enqueued at time 5 and dequeued
    with [now = 3] is returned with the delay [3 - 5], which is negative. *)
Lemma dequeue_negative_delay :
  snd (dequeue (sample_full_queue TAIL_DROP) 3%Q) = Some (0%nat, (3 - 5)%Q)
  ∧ ¬ (0 <= 3 - 5)%Q.
Proof. split; [reflexivity|]. unfold Qle. simpl. lia. Qed.

(** C2: for a queue of capacity at least 1 that starts within its
    capacity, after every finite sequence of [enqueue] and [dequeue] calls
    the capacity is the same, the length is between 0 and the capacity,
    and the utilization is in [[0, 1]]. *)
Theorem queue_length_bounded self ops :
  (1 ≤ capacity self)%Z →
  (get_size self ≤ capacity self)%Z →
  capacity (run self ops) = capacity self
  ∧ (0 ≤ get_size (run self ops) ≤ capacity self)%Z
  ∧ (0 <= get_utilization (run self ops) <= 1)%Q.
Proof.
  intros Hc Hle.
  assert (Hinv : capacity (run self ops) = capacity self
                 ∧ within_capacity (run self ops)).
  { induction ops as [|op ops IH] using rev_ind.
    - split; [done|]. unfold within_capacity, get_size in *. simpl. lia.
    - rewrite run_snoc. destruct IH as [IHc IHw]. destruct op; simpl.
      + rewrite enqueue_capacity. split; [done|].
        apply enqueue_within; [lia|done].
      + rewrite dequeue_capacity. split; [done|]. by apply dequeue_within. }
  destruct Hinv as [Hcap Hw]. split; [done|]. split.
  - unfold within_capacity in Hw. lia.
  - apply utilization_unit; [lia|done].
Qed.

Lemma queue_length_bounded_witness :
  capacity (run (new "L1" 2 RANDOM_DROP) sample_ops) = 2%Z
  ∧ (0 ≤ get_size (run (new "L1" 2 RANDOM_DROP) sample_ops) ≤ 2)%Z
  ∧ (0 <= get_utilization (run (new "L1" 2 RANDOM_DROP) sample_ops) <= 1)%Q.
Proof.
  apply (queue_length_bounded (new "L1" 2 RANDOM_DROP) sample_ops);
    vm_compute; discriminate.
Defined.

(** C10: the equation [length = packets_enqueued - packets_dequeued -
    packets_dropped] holds for a new queue and is preserved by every
    [enqueue] and [dequeue] call, whatever the drop policy and the
    capacity; so it holds after every finite sequence of calls. *)
Theorem queue_conservation lid cap policy ops :
  conserved (new lid cap policy)
  ∧ (∀ self op, conserved self → conserved (run_op self op))
  ∧ conserved (run (new lid cap policy) ops).
Proof.
  assert (Hnew : conserved (new lid cap policy)) by reflexivity.
  assert (Hstep : ∀ self op, conserved self → conserved (run_op self op)).
  { unfold conserved. intros self [pkt now draw|now] Hc; simpl.
    - destruct (enqueue_effect self pkt now draw) as (He & Hdeq & Hd & _).
      rewrite enqueue_size, He, Hd, Hdeq. destruct (is_full self); lia.
    - unfold dequeue, get_size in *.
      destruct (queue self) eqn:Hq; simpl; rewrite ?Hq; simpl in *; lia. }
  split; [done|]. split; [done|].
  induction ops as [|op ops IH] using rev_ind; [done|].
  rewrite run_snoc. by apply Hstep.
Qed.

Lemma queue_conservation_witness :
  conserved (run (new "L1" 1 HEAD_DROP) sample_ops).
Proof. apply (queue_conservation "L1" 1 HEAD_DROP). Defined.

End LinkQueueClaims.

(** ** Properties of the congestion controller *)

Section PyFacts.





Lemma py_min_cap x c : (Py.min c x <= c)%Q.
Proof.
  unfold Py.min. destruct (x ?= c)%Q eqn:Hc; try lra.
  apply Qlt_alt in Hc. lra.
Qed.



End PyFacts.

Section LinkStoreFacts.

Lemma get_put key key' l (store : LinkStore) :
  Links.get key (Links.put key' l store)
  = if String.eqb key' key
    then (match Links.get key' store with Some _ => Some l | None => None end)
    else Links.get key store.
Proof.
  induction store as [|[k l0] store IH]; simpl.
  - by destruct (String.eqb key' key).
  - destruct (String.eqb k key') eqn:Hk'; simpl.
    + apply String.eqb_eq in Hk' as ->.
      by destruct (String.eqb key' key).
    + destruct (String.eqb k key) eqn:Hk.
      * apply String.eqb_eq in Hk as ->.
        destruct (String.eqb key' key) eqn:Hkk; [|done].
        apply String.eqb_eq in Hkk as ->. by rewrite String.eqb_refl in Hk'.
      * done.
Qed.




End LinkStoreFacts.

(** One step through a call: unfold the sequencing and the elementary
    reads and writes, leaving the state transformers folded. *)
Ltac step :=
  unfold update_link, update_packet, link_at, packet_at, node_at;
  unfold bind, read, update, ret, raise;
  cbv beta iota zeta; cbn [negb fst snd].

Section AdmissionFacts.
Import CongestionController.











End AdmissionFacts.

Section CongestionWindowClaim.
Import CongestionController.



End CongestionWindowClaim.

(** ** Properties of the router *)

Section RouterFacts.
Import DijkstraRouter.

Lemma py_min_le_l a b : (Py.min a b <= a)%Q.
Proof. apply py_min_cap. Qed.

Lemma py_min_le_r a b : (Py.min a b <= b)%Q.
Proof.
  unfold Py.min. destruct (b ?= a)%Q eqn:Hc; try lra.
  - apply Qeq_alt in Hc. lra.
  - apply Qgt_alt in Hc. lra.
Qed.

Lemma py_min_cases a b : Py.min a b = a ∨ Py.min a b = b.
Proof. unfold Py.min. destruct (b ?= a)%Q; auto. Qed.

Lemma links_along_cons g a b rest :
  links_along g (a :: b :: rest)
  = match Graph.get_edge_data g a b with
    | Some d =>
        match Graph.weight d, Graph.bandwidth d, links_along g (b :: rest) with
        | Some lat, Some bw, Some ls => Some ((lat, bw) :: ls)
        | _, _, _ => None
        end
    | None => None
    end.
Proof. done. Qed.

Lemma consecutive_cons {A} (a b : A) rest :
  consecutive (a :: b :: rest) = (a, b) :: consecutive (b :: rest).
Proof. done. Qed.

(** The loop of [get_path_cost] adds the latencies of the links. *)
Lemma cost_loop g path ls (acc : Q) :
  links_along g path = Some ls →
  (fold_left
     (λ (total_cost : Q) '(node_a, node_b),
        match Graph.get_edge_data g node_a node_b with
        | Some edge_data =>
            match Graph.weight edge_data with
            | Some w => (total_cost + w)%Q
            | None => total_cost
            end
        | None => total_cost
        end)
     (consecutive path) acc == acc + Qsum ls.*1)%Q.
Proof.
  revert ls acc. induction path as [|a [|b rest] IH]; intros ls acc Hls.
  - inversion Hls. simpl. lra.
  - inversion Hls. simpl. lra.
  - rewrite links_along_cons in Hls. rewrite consecutive_cons. cbn [fold_left].
    destruct (Graph.get_edge_data g a b) as [d|]; [|done].
    destruct (Graph.weight d) as [lat|]; [|done].
    destruct (Graph.bandwidth d) as [bw|]; [|done].
    destruct (links_along g (b :: rest)) as [ls'|] eqn:Hrest; [|done].
    inversion Hls; subst ls. rewrite (IH ls' _ eq_refl).
    unfold Qsum. rewrite fmap_cons. cbn [foldr fst].
    set (rest_sum := foldr Qplus 0%Q ls'.*1). lra.
Qed.

(** The loop of [get_bottleneck_bandwidth], started from a finite value,
    ends on a value that is the start or a link's bandwidth and is below
    the start and every link's bandwidth. *)
Lemma bottleneck_loop g path ls (m : Q) :
  links_along g path = Some ls →
  ∃ m',
    fold_left
      (λ (min_bandwidth : option Q) '(node_a, node_b),
         match Graph.get_edge_data g node_a node_b with
         | Some edge_data =>
             match Graph.bandwidth edge_data with
             | Some bw => Py.min_inf min_bandwidth bw
             | None => min_bandwidth
             end
         | None => min_bandwidth
         end)
      (consecutive path) (Some m) = Some m'
    ∧ (m' = m ∨ In m' ls.*2)
    ∧ (m' <= m)%Q
    ∧ ∀ bw, In bw ls.*2 → (m' <= bw)%Q.
Proof.
  revert ls m. induction path as [|a [|b rest] IH]; intros ls m Hls.
  - inversion Hls. exists m. simpl. split_and!; auto; [lra | tauto].
  - inversion Hls. exists m. simpl. split_and!; auto; [lra | tauto].
  - rewrite links_along_cons in Hls. rewrite consecutive_cons. cbn [fold_left].
    destruct (Graph.get_edge_data g a b) as [d|]; [|done].
    destruct (Graph.weight d) as [lat|]; [|done].
    destruct (Graph.bandwidth d) as [bw|]; [|done].
    destruct (links_along g (b :: rest)) as [ls'|] eqn:Hrest; [|done].
    inversion Hls; subst ls. cbn [Py.min_inf].
    destruct (IH ls' (Py.min m bw) eq_refl) as (m' & Hfold & Hin & Hle & Hall).
    exists m'. split; [exact Hfold|].
    pose proof (py_min_le_l m bw). pose proof (py_min_le_r m bw).
    split_and!.
    + destruct Hin as [->|Hin]; [|right; simpl; by right].
      destruct (py_min_cases m bw) as [->| ->]; [by left|right; simpl; by left].
    + lra.
    + simpl. intros bw' [<-|Hbw']; [lra|by apply Hall].
Qed.

End RouterFacts.

Section RouterClaims.
Import DijkstraRouter.

(** C7: for a path of two or more nodes whose consecutive nodes are all
    joined by links, [get_path_info] reports a total latency equal to the
    sum of the latencies of the consecutive links, a bottleneck bandwidth
    that is the minimum of the bandwidths of those links (it is one of
    them and none is smaller), and a throughput equal to the bottleneck
    bandwidth; the first two are the results of [get_path_cost] and
    [get_bottleneck_bandwidth]. *)
Theorem path_metrics g path ls network_manager :
  2 ≤ length path →
  links_along g path = Some ls →
  let info := get_path_info g path network_manager in
  (total_latency info == Qsum ls.*1)%Q
  ∧ In (bottleneck_bandwidth info) ls.*2
  ∧ (∀ bw, In bw ls.*2 → (bottleneck_bandwidth info <= bw)%Q)
  ∧ throughput info = bottleneck_bandwidth info
  ∧ total_latency info = get_path_cost g path
  ∧ bottleneck_bandwidth info = get_bottleneck_bandwidth g path.
Proof.
  intros Hlen Hls. unfold get_path_info.
  destruct (Nat.ltb_spec (length path) 2) as [|_]; [lia|].
  cbn [total_latency bottleneck_bandwidth throughput].
  split_and!; try done.
  - unfold get_path_cost.
    destruct (Nat.ltb_spec (length path) 2) as [|_]; [lia|].
    rewrite (cost_loop g path ls 0 Hls). lra.
  - unfold get_bottleneck_bandwidth.
    destruct (Nat.ltb_spec (length path) 2) as [|_]; [lia|].
    destruct path as [|a [|b rest]]; simpl in Hlen; try lia.
    rewrite links_along_cons in Hls. rewrite consecutive_cons. cbn [fold_left].
    destruct (Graph.get_edge_data g a b) as [d|]; [|done].
    destruct (Graph.weight d) as [lat|]; [|done].
    destruct (Graph.bandwidth d) as [bw|]; [|done].
    destruct (links_along g (b :: rest)) as [ls'|] eqn:Hrest; [|done].
    inversion Hls; subst ls. cbn [Py.min_inf].
    destruct (bottleneck_loop g (b :: rest) ls' bw Hrest)
      as (m' & -> & Hin & Hle & Hall).
    simpl. destruct Hin as [->|Hin]; auto.
  - unfold get_bottleneck_bandwidth.
    destruct (Nat.ltb_spec (length path) 2) as [|_]; [lia|].
    destruct path as [|a [|b rest]]; simpl in Hlen; try lia.
    rewrite links_along_cons in Hls. rewrite consecutive_cons. cbn [fold_left].
    destruct (Graph.get_edge_data g a b) as [d|]; [|done].
    destruct (Graph.weight d) as [lat|]; [|done].
    destruct (Graph.bandwidth d) as [bw|]; [|done].
    destruct (links_along g (b :: rest)) as [ls'|] eqn:Hrest; [|done].
    inversion Hls; subst ls. cbn [Py.min_inf].
    destruct (bottleneck_loop g (b :: rest) ls' bw Hrest)
      as (m' & -> & Hin & Hle & Hall).
    simpl. intros bw' [<-|Hbw']; [done|by apply Hall].
Qed.

Lemma path_metrics_witness :
  (total_latency
     (get_path_info (NetworkManager.graph sample_network)
        ["N1"; "N2"; "N3"]%string None) == Qsum [5; 7])%Q
  ∧ In (bottleneck_bandwidth
          (get_path_info (NetworkManager.graph sample_network)
             ["N1"; "N2"; "N3"]%string None)) [100%Q; 50%Q].
Proof.
  destruct (path_metrics (NetworkManager.graph sample_network)
              ["N1"; "N2"; "N3"]%string [(5, 100); (7, 50)]%Q None)
    as (Hsum & Hin & _).
  - simpl. lia.
  - reflexivity.
  - split; [exact Hsum | exact Hin].
Defined.

End RouterClaims.

Section SearchFacts.

Lemma neighbour_adjacent (g : Graph.t) u v :
  v ∈ (map_to_list (default ∅ (g !! u))).*1 → Graph.adjacent g u v.
Proof.
  intros Hv. apply list_elem_of_fmap in Hv as ([v' d] & -> & Hvd).
  apply elem_of_map_to_list in Hvd. unfold Graph.adjacent, Graph.get_edge_data.
  destruct (g !! u) as [nbrs|]; simpl in *; [by eexists|].
  by rewrite lookup_empty in Hvd.
Qed.

(** A walk found by the search is a walk of the graph. *)
Lemma search_sound g fuel visited u target p :
  search g fuel visited u target = Some p → Graph.connected g u target.
Proof.
  revert visited u p. induction fuel as [|fuel IH]; intros visited u p; [done|].
  simpl. destruct (String.eqb_spec u target) as [->|_]; [intros _; apply rtc_refl|].
  pose proof (neighbour_adjacent g u) as Hadj.
  induction ((map_to_list (default ∅ (g !! u))).*1) as [|v nbrs IHn]; [done|].
  case_bool_decide.
  - apply IHn. intros v' Hv'. apply Hadj. by right.
  - destruct (search g fuel (u :: visited) v target) as [p'|] eqn:Hs.
    + intros _. eapply rtc_l; [apply Hadj; by left|]. by eapply IH.
    + apply IHn. intros v' Hv'. apply Hadj. by right.
Qed.

Lemma sample_shortest_path_contract : raises_no_path sample_shortest_path.
Proof.
  intros g source target weight Hs Ht Hno. unfold sample_shortest_path.
  rewrite Hs, Ht. simpl.
  destruct (search g (size g) [] source target) as [p|] eqn:Hp; [|done].
  destruct Hno. by eapply search_sound.
Qed.

Lemma adjacent_neighbour (g : Graph.t) u v :
  Graph.adjacent g u v → v ∈ (map_to_list (default ∅ (g !! u))).*1.
Proof.
  unfold Graph.adjacent, Graph.get_edge_data. intros [d Hd].
  destruct (g !! u) as [nbrs|]; simpl in *; [|done].
  apply list_elem_of_fmap. exists (v, d). split; [done|].
  by apply elem_of_map_to_list.
Qed.

(** A walk that starts in a closed set of nodes stays in it. *)
Lemma closed_walk g component u v :
  closed_under g component = true →
  u ∈ component → Graph.connected g u v → v ∈ component.
Proof.
  intros Hclosed Hu Hwalk. induction Hwalk as [|x y z Hxy _ IH]; [done|].
  apply IH. unfold closed_under in Hclosed.
  rewrite forallb_forall in Hclosed.
  specialize (Hclosed x (proj1 (list_elem_of_In _ _) Hu)).
  rewrite forallb_forall in Hclosed.
  apply adjacent_neighbour, list_elem_of_In, Hclosed in Hxy.
  by apply bool_decide_eq_true in Hxy.
Qed.

Lemma sample_isolated :
  ¬ Graph.connected (NetworkManager.graph sample_network) "N1" "N4".
Proof.
  intros Hwalk.
  apply (closed_walk _ ["N1"; "N2"; "N3"]%string) in Hwalk.
  - repeat (apply elem_of_cons in Hwalk as [Hwalk|Hwalk]; [discriminate|]).
    by apply elem_of_nil in Hwalk.
  - by vm_compute.
  - by left.
Qed.

End SearchFacts.

Section ShortestPathClaim.
Import DijkstraRouter.

(** C8: [compute_shortest_path] raises [ValueError] when the start node
    or the end node is not in the graph and when the two are the same
    node; for two different nodes of the graph that no walk connects it
    returns [None] without raising (under either metric, the library
    search raising [NetworkXNoPath] as its contract says). *)
Theorem compute_shortest_path_errors shortest_path g source target metric :
  raises_no_path shortest_path →
  (Graph.has_node g source = false ∨ Graph.has_node g target = false
   ∨ source = target →
   ∃ msg, compute_shortest_path shortest_path g source target metric
          = Raise (ValueError msg))
  ∧ (Graph.has_node g source = true → Graph.has_node g target = true →
     source ≠ target → ¬ Graph.connected g source target →
     metric = "latency"%string ∨ metric = "hops"%string →
     compute_shortest_path shortest_path g source target metric = Return None).
Proof.
  intros Hlib. unfold compute_shortest_path. split.
  - intros Hbad.
    destruct (Graph.has_node g source) eqn:Hs; simpl; [|by eexists].
    destruct (Graph.has_node g target) eqn:Ht; simpl; [|by eexists].
    destruct Hbad as [|[|Heq]]; try done.
    apply String.eqb_eq in Heq. rewrite Heq. by eexists.
  - intros Hs Ht Hne Hno Hmetric. rewrite Hs, Ht. simpl.
    apply String.eqb_neq in Hne. rewrite Hne.
    destruct Hmetric as [-> | ->]; simpl; by rewrite Hlib.
Qed.

Lemma compute_shortest_path_errors_witness :
  (∃ msg, compute_shortest_path sample_shortest_path
            (NetworkManager.graph sample_network) "N1" "N1" "latency"
          = Raise (ValueError msg))
  ∧ (∃ msg, compute_shortest_path sample_shortest_path
              (NetworkManager.graph sample_network) "N9" "N1" "latency"
            = Raise (ValueError msg))
  ∧ compute_shortest_path sample_shortest_path
      (NetworkManager.graph sample_network) "N1" "N4" "latency"
    = Return None.
Proof.
  split; [|split].
  - apply (compute_shortest_path_errors sample_shortest_path
             (NetworkManager.graph sample_network) "N1" "N1" "latency"
             sample_shortest_path_contract).
    right. right. reflexivity.
  - apply (compute_shortest_path_errors sample_shortest_path
             (NetworkManager.graph sample_network) "N9" "N1" "latency"
             sample_shortest_path_contract).
    left. reflexivity.
  - apply (compute_shortest_path_errors sample_shortest_path
             (NetworkManager.graph sample_network) "N1" "N4" "latency"
             sample_shortest_path_contract);
      [reflexivity | reflexivity | discriminate | | left; reflexivity].
    apply sample_isolated.
Defined.

End ShortestPathClaim.

(** ** Properties of the packet manager *)

Section PacketManagerFacts.

Lemma process_packet_on_link_packets pkt link now draw w :
  packets (process_packet_on_link pkt link now draw w).2 = packets w.
Proof.
  unfold process_packet_on_link. step.
  destruct (Links.get link _) as [l|]; [|done].
  destruct (CongestionController.link_queues _ !! _) as [queue|]; [|done].
  destruct (LinkQueue.enqueue queue pkt now draw) as [q' acc].
  destruct acc; step.
  - destruct (CongestionController.enable_tcp_congestion _); [|done].
    by destruct (CongestionController._handle_packet_success _ _ _).
  - change (packets (with_congestion_controller _ w)) with (packets w).
    destruct (packets w !! pkt); [|done].
    by destruct (CongestionController.enable_tcp_congestion _).
Qed.

Lemma drop_packet_state pkt w p :
  packets w !! pkt = Some p →
  ∃ w', drop_packet pkt w = (Return (), w') ∧ state_of w' pkt = Some DROPPED.
Proof.
  intros Hp. unfold drop_packet. step.
  assert (Hp' : packets (mutate_packet pkt Packet.mark_dropped
                  (mutate_packet pkt (Packet.set_state DROPPED) w)) !! pkt
                = Some (Packet.mark_dropped (Packet.set_state DROPPED p))).
  { unfold mutate_packet, with_packets. cbn [packets].
    by rewrite !list_lookup_alter_eq, Hp. }
  rewrite Hp'. eexists. split; [done|].
  unfold state_of. cbn [packets with_animator_worker with_packet_manager
                          with_latency_engine].
  by rewrite Hp'.
Qed.

End PacketManagerFacts.

Section CreatePacketClaim.

(** C9: [create_packet] called with an unknown source node, an unknown
    destination node, or a source equal to the destination returns [None]
    and leaves the whole simulator as it was: no packet object is
    created, [packet_counter] is not incremented, and no metrics record
    or counter of the latency engine or of the congestion controller
    changes. *)
Theorem create_packet_rejects shortest_path w source_id dest_id size :
  NetworkManager.nodes (network_manager w) !! source_id = None
  ∨ NetworkManager.nodes (network_manager w) !! dest_id = None
  ∨ source_id = dest_id →
  create_packet shortest_path source_id dest_id size w = (Return None, w).
Proof.
  intros Hbad. unfold create_packet. step.
  destruct (NetworkManager.nodes (network_manager w) !! source_id) as [ns|] eqn:Hs;
    [|done].
  destruct (NetworkManager.nodes (network_manager w) !! dest_id) as [nd|] eqn:Hd;
    [|done].
  destruct Hbad as [|[|Heq]]; try done.
  rewrite !bool_decide_eq_true_2 by by eexists. simpl.
  apply String.eqb_eq in Heq. by rewrite Heq.
Qed.

Lemma create_packet_rejects_witness :
  create_packet sample_shortest_path "N9" "N1" 1024 sample_simulator
  = (Return None, sample_simulator)
  ∧ create_packet sample_shortest_path "N1" "N9" 1024 sample_simulator
    = (Return None, sample_simulator)
  ∧ create_packet sample_shortest_path "N2" "N2" 1024 sample_simulator
    = (Return None, sample_simulator).
Proof.
  split; [|split].
  - apply (create_packet_rejects sample_shortest_path sample_simulator
             "N9" "N1" 1024). left. reflexivity.
  - apply (create_packet_rejects sample_shortest_path sample_simulator
             "N1" "N9" 1024). right. left. reflexivity.
  - apply (create_packet_rejects sample_shortest_path sample_simulator
             "N2" "N2" 1024). right. right. reflexivity.
Defined.

End CreatePacketClaim.

Section PacketStateFacts.

Lemma move_to_next_link_state now p :
  Packet.state (Packet.move_to_next_link now p).1
  = if (Packet.move_to_next_link now p).2 then DELIVERED else IN_TRANSIT.
Proof.
  unfold Packet.move_to_next_link.
  destruct (_ <=? _); [done|]. by destruct (_ <=? _)%Z.
Qed.

Lemma move_to_next_link_at_end now p :
  length (Packet.path p) ≤ Packet.path_index p + 1 →
  (Packet.move_to_next_link now p).2 = true.
Proof.
  intros Hend. unfold Packet.move_to_next_link.
  by destruct (Nat.leb_spec (length (Packet.path p)) (Packet.path_index p + 1));
    [|lia].
Qed.

Lemma move_to_next_link_reaches_end now p :
  (Packet.move_to_next_link now p).2 = true →
  length (Packet.path (Packet.move_to_next_link now p).1)
  ≤ Packet.path_index (Packet.move_to_next_link now p).1 + 1.
Proof.
  unfold Packet.move_to_next_link.
  destruct (Nat.leb_spec (length (Packet.path p)) (Packet.path_index p + 1));
    [done|].
  destruct (Z.leb_spec
              (Z.of_nat (length (Packet.path (Packet.enter_next_link now p))) - 1)
              (Z.of_nat (Packet.path_index (Packet.enter_next_link now p))));
    [|done].
  simpl in *. lia.
Qed.

Lemma start_packet_animation_state pkt draw w p res w' :
  packets w !! pkt = Some p →
  start_packet_animation pkt draw w = (Return res, w') →
  state_of w' pkt = Some (if res then IN_TRANSIT else DROPPED).
Proof.
  intros Hp. unfold start_packet_animation. step. rewrite Hp.
  assert (Hdrop : ∀ w0, packets w0 !! pkt = Some p →
            (let (o, w1) := drop_packet pkt w0 in
             match o with
             | Return _ => (Return false, w1)
             | Raise e => (Raise e, w1)
             end) = (Return res, w') →
            state_of w' pkt = Some (if res then IN_TRANSIT else DROPPED)).
  { intros w0 Hp0 Hrun.
    destruct (drop_packet_state pkt w0 p Hp0) as (w1 & Hd & Hst).
    rewrite Hd in Hrun. by inversion Hrun; subst. }
  destruct (Packet.path p) as [|node_a_id [|node_b_id rest]];
    [by apply Hdrop | by apply Hdrop |].
  destruct (Links.get_link_by_nodes _ _ _) as [[link l]|]; [|by apply Hdrop].
  pose proof (process_packet_on_link_packets pkt link (sim_time w) draw w) as Hpk.
  destruct (process_packet_on_link pkt link (sim_time w) draw w) as [[acc|e] w1];
    [|done].
  simpl in Hpk. destruct acc; cbn [negb].
  - destruct (NetworkManager.nodes (network_manager w1) !! node_a_id); [|done].
    destruct (NetworkManager.nodes (network_manager w1) !! node_b_id); [|done].
    intros Hrun. inversion Hrun; subst. unfold state_of, mutate_packet.
    cbn [packets with_animator_worker with_latency_engine with_packets].
    by rewrite list_lookup_alter_eq, Hpk, Hp.
  - apply Hdrop. by rewrite Hpk.
Qed.

Lemma advance_packet_state pkt draw w p res w' :
  packets w !! pkt = Some p →
  advance_packet pkt draw w = (Return res, w') →
  if res then state_of w' pkt = Some DELIVERED
  else state_of w' pkt = Some IN_TRANSIT ∨ state_of w' pkt = Some DROPPED.
Proof.
  intros Hp. unfold advance_packet. step. rewrite Hp.
  pose proof (move_to_next_link_state (sim_time w) p) as Hmove.
  destruct (Packet.move_to_next_link (sim_time w) p) as [moved reached].
  simpl in Hmove. step.
  set (w0 := mutate_packet pkt (λ _, moved) w).
  assert (Hp0 : packets w0 !! pkt = Some moved).
  { unfold w0, mutate_packet, with_packets. cbn [packets].
    by rewrite list_lookup_alter_eq, Hp. }
  clearbody w0. destruct reached.
  - intros Hrun. inversion Hrun; subst. unfold state_of, mutate_packet.
    cbn [packets with_packet_manager with_latency_engine with_packets].
    by rewrite list_lookup_alter_eq, Hp0.
  - assert (Hstay : state_of w0 pkt = Some IN_TRANSIT)
      by (unfold state_of; by rewrite Hp0, <- Hmove).
    destruct (Packet.path moved !! Packet.path_index moved) as [node_a_id|];
      [|intros Hrun; inversion Hrun; subst; by left].
    destruct (Packet.path moved !! S (Packet.path_index moved)) as [node_b_id|];
      [|intros Hrun; inversion Hrun; subst; by left].
    destruct (Links.get_link_by_nodes _ _ _) as [[link l]|];
      [|intros Hrun; inversion Hrun; subst; by left].
    pose proof (process_packet_on_link_packets pkt link (sim_time w) draw w0)
      as Hpk.
    destruct (process_packet_on_link pkt link (sim_time w) draw w0)
      as [[acc|e] w1]; [|done].
    simpl in Hpk. destruct acc; cbn [negb].
    + destruct (NetworkManager.nodes (network_manager w1) !! node_a_id); [|done].
      destruct (NetworkManager.nodes (network_manager w1) !! node_b_id); [|done].
      intros Hrun. inversion Hrun; subst. left. unfold state_of, mutate_packet.
      cbn [packets with_animator_worker with_packets].
      rewrite list_lookup_alter_eq, Hpk, Hp0. simpl. by rewrite Hmove.
    + destruct (drop_packet_state pkt w1 moved) as (w2 & Hd & Hst);
        [by rewrite Hpk|].
      rewrite Hd. intros Hrun. inversion Hrun; subst. by right.
Qed.

End PacketStateFacts.

Section PacketStateClaim.

(** C4 (as amended): a packet's state is one of QUEUED, IN_TRANSIT,
    DELIVERED, DROPPED, and no operation sets it to QUEUED.  Whatever the
    state before the call: [move_to_next_link] leaves the packet
    DELIVERED when it returns true and IN_TRANSIT otherwise;
    [mark_delivered] leaves it DELIVERED; [mark_dropped] and
    [drop_packet] leave it DROPPED; [start_packet_animation] leaves it
    IN_TRANSIT when it returns true and DROPPED when it returns false;
    [advance_packet] leaves it DELIVERED when it returns true and
    IN_TRANSIT or DROPPED when it returns false.  A packet at the last
    node of its path, as every delivery leaves it, is delivered again by
    [move_to_next_link].  The operations do not test the current state,
    so DELIVERED and DROPPED are not closed under them. *)
Theorem packet_state_transitions p now w pkt draw :
  (Packet.state p = QUEUED ∨ Packet.state p = IN_TRANSIT
   ∨ Packet.state p = DELIVERED ∨ Packet.state p = DROPPED)
  ∧ Packet.state (Packet.move_to_next_link now p).1
    = (if (Packet.move_to_next_link now p).2 then DELIVERED else IN_TRANSIT)
  ∧ Packet.state (Packet.mark_delivered now p) = DELIVERED
  ∧ Packet.state (Packet.mark_dropped p) = DROPPED
  ∧ (length (Packet.path p) ≤ Packet.path_index p + 1 →
     (Packet.move_to_next_link now p).2 = true)
  ∧ ((Packet.move_to_next_link now p).2 = true →
     length (Packet.path (Packet.move_to_next_link now p).1)
     ≤ Packet.path_index (Packet.move_to_next_link now p).1 + 1)
  ∧ (packets w !! pkt = Some p →
     (∃ w', drop_packet pkt w = (Return (), w')
            ∧ state_of w' pkt = Some DROPPED)
     ∧ (∀ res w', start_packet_animation pkt draw w = (Return res, w') →
          state_of w' pkt = Some (if res then IN_TRANSIT else DROPPED))
     ∧ (∀ res w', advance_packet pkt draw w = (Return res, w') →
          if res then state_of w' pkt = Some DELIVERED
          else state_of w' pkt = Some IN_TRANSIT
               ∨ state_of w' pkt = Some DROPPED)).
Proof.
  split_and!.
  - destruct (Packet.state p); auto.
  - apply move_to_next_link_state.
  - done.
  - done.
  - apply move_to_next_link_at_end.
  - apply move_to_next_link_reaches_end.
  - intros Hp. split_and!.
    + by eapply drop_packet_state.
    + intros res w'. apply (start_packet_animation_state pkt draw w p res w' Hp).
    + intros res w'. apply (advance_packet_state pkt draw w p res w' Hp).
Qed.

Lemma packet_state_transitions_witness :
  state_of (start_packet_animation 0 0 sample_created).2 0 = Some IN_TRANSIT
  ∧ ∃ w', drop_packet 0 sample_created = (Return (), w')
          ∧ state_of w' 0 = Some DROPPED.
Proof.
  destruct (packet_state_transitions sample_packet 0 sample_created 0 0)
    as (_ & _ & _ & _ & _ & _ & Hops).
  destruct (Hops eq_refl) as (Hdrop & Hstart & _).
  split; [|exact Hdrop].
  apply (Hstart true). reflexivity.
Defined.

(** C4, the claim as stated fails: the sample packet, delivered by two
    calls of [advance_packet], is DROPPED after [drop_packet] (and after
    [mark_dropped]), and IN_TRANSIT again after [start_packet_animation];
    a dropped packet is DELIVERED after [mark_delivered]. *)
Lemma terminal_states_not_absorbing :
  state_of sample_delivered 0 = Some DELIVERED
  ∧ state_of (drop_packet 0 sample_delivered).2 0 = Some DROPPED
  ∧ state_of (start_packet_animation 0 0 sample_delivered).2 0 = Some IN_TRANSIT
  ∧ (Packet.state <$> (Packet.mark_dropped <$> packets sample_delivered !! 0%nat))
    = Some DROPPED
  ∧ (Packet.state
       <$> (Packet.mark_delivered 9 <$> packets (drop_packet 0 sample_delivered).2 !! 0%nat))
    = Some DELIVERED.
Proof. by vm_compute. Qed.

End PacketStateClaim.

(** ** Scenarios run on the model *)

Section Scenarios.

(** A queue of capacity 1 under tail drop: the first packet is accepted,
  the second is rejected and counted, and the departure returns the first
  packet with the time it waited. *)
Example scenario_capacity_one :
(LinkQueue.enqueue (LinkQueue.new "L1" 1 TAIL_DROP) 0 5 0).2 = true
∧ (LinkQueue.enqueue (sample_full_queue TAIL_DROP) 1 6 0).2 = false
∧ LinkQueue.get_size (LinkQueue.enqueue (sample_full_queue TAIL_DROP) 1 6 0).1 = 1%Z
∧ LinkQueue.packets_dropped (LinkQueue.enqueue (sample_full_queue TAIL_DROP) 1 6 0).1
  = 1%Z
∧ (LinkQueue.dequeue (LinkQueue.enqueue (sample_full_queue TAIL_DROP) 1 6 0).1 8).2
  = Some (0, (8 - 5)%Q).
Proof. by vm_compute. Qed.

(** No route between N1 and the isolated node N4: no packet object and no
  metrics record is made, but [packet_counter] has already advanced. *)
Example scenario_no_route :
(create_packet sample_shortest_path "N1" "N4" 1000 sample_simulator).1
= Return None
∧ packets (create_packet sample_shortest_path "N1" "N4" 1000 sample_simulator).2
  = []
∧ LatencyThroughputEngine.total_packets_sent
    (latency_engine
       (create_packet sample_shortest_path "N1" "N4" 1000 sample_simulator).2)
  = 0%Z
∧ QueueAwarePacketManager.packet_counter
    (packet_manager
       (create_packet sample_shortest_path "N1" "N4" 1000 sample_simulator).2)
  = 1%Z.
Proof. by vm_compute. Qed.

(** The packet N1 -> N3 is created QUEUED, is IN_TRANSIT after it starts
  and after its first hop, and DELIVERED after its second hop. *)
Example scenario_delivery :
state_of sample_created 0 = Some QUEUED
∧ state_of (start_packet_animation 0 0 sample_created).2 0 = Some IN_TRANSIT
∧ state_of (advance_packet 0 0 (start_packet_animation 0 0 sample_created).2).2 0
  = Some IN_TRANSIT
∧ state_of sample_delivered 0 = Some DELIVERED
∧ QueueAwarePacketManager.delivered_packets (packet_manager sample_delivered)
  = [0].
Proof. by vm_compute. Qed.

(** With the one place of link L2 taken, the second hop is refused: the
  packet goes QUEUED, IN_TRANSIT, DROPPED, and the window of L2 is halved
  to its floor. *)
Example scenario_mid_path_drop :
state_of
  (advance_packet 0 0
     (start_packet_animation 0 0
        (run_event sample_created (Admission 0 "L2" 0 0))).2).2 0
= Some DROPPED
∧ window
    (advance_packet 0 0
       (start_packet_animation 0 0
          (run_event sample_created (Admission 0 "L2" 0 0))).2).2 "L2"
  = Some 1%Q.
Proof. by vm_compute. Qed.

End Scenarios.

(** ** Further properties of the link queue *)

Section LinkQueueOrder.
Import LinkQueue.

Lemma enqueue_with_room self pkt now draw :
  (get_size self < capacity self)%Z →
  enqueue self pkt now draw
  = (set_queue (queue self ++ [mkItem pkt now]) (incr_enqueued self), true).
Proof.
  intros Hroom. unfold enqueue, get_size in *. simpl.
  by destruct (Z.ltb_spec (Z.of_nat (length (queue self))) (capacity self)); [|lia].
Qed.

Lemma arrive_with_room arrivals : ∀ self draw,
  (get_size self + Z.of_nat (length arrivals) ≤ capacity self)%Z →
  (arrive self arrivals draw).2 = replicate (length arrivals) true
  ∧ queue (arrive self arrivals draw).1
    = queue self ++ map (λ a, mkItem a.1 a.2) arrivals
  ∧ capacity (arrive self arrivals draw).1 = capacity self
  ∧ packets_enqueued (arrive self arrivals draw).1
    = (packets_enqueued self + Z.of_nat (length arrivals))%Z
  ∧ packets_dropped (arrive self arrivals draw).1 = packets_dropped self
  ∧ packets_dequeued (arrive self arrivals draw).1 = packets_dequeued self.
Proof.
  induction arrivals as [|[pkt at_time] rest IH]; intros self draw Hroom.
  - simpl. rewrite app_nil_r. split_and!; try done. lia.
  - cbn [arrive]. rewrite enqueue_with_room by (simpl in Hroom; lia).
    set (self1 := set_queue _ _).
    destruct (IH self1 draw) as (Hres & Hq & Hcap & Henq & Hdrop & Hdeq).
    { unfold self1, get_size in *. simpl in *. rewrite length_app. simpl. lia. }
    destruct (arrive self1 rest draw) as [self2 results]. simpl in *.
    rewrite Hres, Hq, Hcap, Henq, Hdrop, Hdeq.
    split_and!; try done.
    + by rewrite <- app_assoc.
    + lia.
Qed.

Lemma serve_all now : ∀ self,
  (serve self now (length (queue self))).2 = map (served now) (queue self)
  ∧ queue (serve self now (length (queue self))).1 = []
  ∧ packets_dequeued (serve self now (length (queue self))).1
    = (packets_dequeued self + Z.of_nat (length (queue self)))%Z
  ∧ packets_enqueued (serve self now (length (queue self))).1
    = packets_enqueued self
  ∧ packets_dropped (serve self now (length (queue self))).1
    = packets_dropped self.
Proof.
  intros self. remember (queue self) as items eqn:Hitems.
  revert self Hitems. induction items as [|item items IH]; intros self Hitems.
  - simpl. rewrite <- Hitems. split_and!; try done. lia.
  - cbn [length serve]. unfold dequeue. rewrite <- Hitems.
    set (self1 := record_dequeue _ _).
    destruct (IH self1 eq_refl) as (Hres & Hq & Hdeq & Henq & Hdrop).
    destruct (serve self1 now (length items)) as [self2 results]. simpl in *.
    rewrite Hres, Hq, Hdeq, Henq, Hdrop. split_and!; try done. lia.
Qed.

End LinkQueueOrder.

Section LinkQueueExtras.
Import LinkQueue.

(** X1: first in, first out.  When a new queue has room for all of a list
    of arrivals, every one of them is accepted, and as many [dequeue] calls
    return exactly those packets in arrival order, each with the delay
    [now] minus its own arrival time, leaving the queue empty with
    [packets_enqueued = packets_dequeued] and nothing dropped. *)
Theorem fifo_round_trip lid cap policy arrivals draw now :
  (Z.of_nat (length arrivals) ≤ cap)%Z →
  let filled := (arrive (new lid cap policy) arrivals draw).1 in
  (arrive (new lid cap policy) arrivals draw).2
  = replicate (length arrivals) true
  ∧ (serve filled now (length arrivals)).2
    = map (λ a, (a.1, (now - a.2)%Q)) arrivals
  ∧ queue (serve filled now (length arrivals)).1 = []
  ∧ packets_enqueued (serve filled now (length arrivals)).1
    = Z.of_nat (length arrivals)
  ∧ packets_dequeued (serve filled now (length arrivals)).1
    = Z.of_nat (length arrivals)
  ∧ packets_dropped (serve filled now (length arrivals)).1 = 0%Z.
Proof.
  intros Hroom filled.
  destruct (arrive_with_room arrivals (new lid cap policy) draw)
    as (Hres & Hq & _ & Henq & Hdrop & Hdeq); [unfold get_size; simpl; lia|].
  fold filled in Hq, Henq, Hdrop, Hdeq. simpl in Hq, Henq, Hdrop, Hdeq.
  assert (Hlen : length arrivals = length (queue filled))
    by (by rewrite Hq, length_map).
  rewrite Hlen.
  destruct (serve_all now filled) as (Hout & Hempty & Hdeq' & Henq' & Hdrop').
  rewrite Hout, Hempty, Hdeq', Henq', Hdrop', <- Hlen, Hq, Henq, Hdeq, Hdrop.
  rewrite map_map. split_and!; done.
Qed.

End LinkQueueExtras.

Section LinkQueueEdges.
Import LinkQueue.

Lemma fifo_round_trip_witness :
  (serve (arrive (new "L1" 3 TAIL_DROP) [(7, 1%Q); (8, 2%Q)] 0).1 5 2).2
  = [(7, (5 - 1)%Q); (8, (5 - 2)%Q)].
Proof.
  apply (fifo_round_trip "L1" 3 TAIL_DROP [(7, 1%Q); (8, 2%Q)] 0 5). simpl. lia.
Defined.

(** X2: on a queue of capacity at least 1, a packet that [enqueue] reports
    as accepted is the last item of the queue afterwards, with the call's
    time as its enqueue time; on a full queue exactly one older item has
    gone: the oldest under head drop, the one at the drawn position under
    random drop, and the order of the others is kept. *)
Theorem accepted_packet_is_stored self pkt now draw :
  (1 ≤ capacity self)%Z →
  (enqueue self pkt now draw).2 = true →
  last (queue (enqueue self pkt now draw).1) = Some (mkItem pkt now)
  ∧ (is_full self = true →
     match drop_policy self with
     | TAIL_DROP => False
     | HEAD_DROP =>
         queue (enqueue self pkt now draw).1 = tail (queue self) ++ [mkItem pkt now]
     | RANDOM_DROP =>
         ∃ idx, idx < length (queue self)
                ∧ queue (enqueue self pkt now draw).1
                  = delete idx (queue self) ++ [mkItem pkt now]
     end).
Proof.
  intros Hcap. unfold enqueue, is_full, get_size. simpl.
  destruct (Z.ltb_spec (Z.of_nat (length (queue self))) (capacity self)) as [|Hfull].
  - intros _. simpl. rewrite last_snoc. split; [done|].
    destruct (Z.leb_spec (capacity self) (Z.of_nat (length (queue self)))); [lia|done].
  - destruct (queue self) as [|first rest] eqn:Hq; [simpl in Hfull; lia|].
    destruct (drop_policy self); simpl; rewrite ?Hq; simpl; [done| |].
    + intros _. rewrite last_snoc. done.
    + intros _. rewrite last_snoc. split; [done|]. intros _.
      eexists. split; [|done].
      pose proof (randint_range (length rest) draw) as Hr. simpl in Hr.
      by rewrite Nat.sub_0_r in Hr |- *.
Qed.

Lemma accepted_packet_is_stored_witness :
  last (queue (enqueue (sample_full_queue HEAD_DROP) 1 6 0).1)
  = Some (mkItem 1 6).
Proof.
  apply (accepted_packet_is_stored (sample_full_queue HEAD_DROP) 1 6 0);
    [simpl; lia | reflexivity].
Defined.

(** X3: a queue whose capacity is 0 or negative never holds a packet: every
    [enqueue] on it, empty as it starts, leaves it empty and counts one
    attempt and one drop.  Tail drop reports the packet as rejected, but
    head drop and random drop report it as accepted although it is not
    stored. *)
Theorem zero_capacity_loses_packets self pkt now draw :
  (capacity self ≤ 0)%Z →
  queue self = [] →
  queue (enqueue self pkt now draw).1 = []
  ∧ packets_enqueued (enqueue self pkt now draw).1 = (packets_enqueued self + 1)%Z
  ∧ packets_dropped (enqueue self pkt now draw).1 = (packets_dropped self + 1)%Z
  ∧ (enqueue self pkt now draw).2
    = match drop_policy self with TAIL_DROP => false | _ => true end.
Proof.
  intros Hcap Hq. unfold enqueue, get_size. simpl. rewrite Hq. simpl.
  destruct (Z.ltb_spec (Z.of_nat 0) (capacity self)); [lia|].
  destruct (drop_policy self); simpl; rewrite ?Hq; done.
Qed.

Lemma zero_capacity_loses_packets_witness :
  queue (enqueue (new "L1" 0 HEAD_DROP) 3 1 0).1 = []
  ∧ (enqueue (new "L1" 0 HEAD_DROP) 3 1 0).2 = true.
Proof.
  destruct (zero_capacity_loses_packets (new "L1" 0 HEAD_DROP) 3 1 0)
    as (Hq & _ & _ & Hres); [simpl; lia | reflexivity |].
  split; [exact Hq | exact Hres].
Defined.

(** X4: [clear] empties the queue but resets no counter, so the queue's
    counters stop accounting for its length: after clearing a non-empty
    queue whose counters were consistent, [packets_enqueued -
    packets_dequeued - packets_dropped] is no longer the length. *)
Theorem clear_keeps_counters self :
  queue self ≠ [] →
  conserved self →
  get_size (clear self) = 0%Z
  ∧ packets_enqueued (clear self) = packets_enqueued self
  ∧ packets_dequeued (clear self) = packets_dequeued self
  ∧ packets_dropped (clear self) = packets_dropped self
  ∧ total_queue_delay (clear self) = total_queue_delay self
  ∧ ¬ conserved (clear self).
Proof.
  intros Hne Hcons. split_and!; try done.
  unfold conserved, get_size in *. simpl.
  destruct (queue self); [done|]. simpl in Hcons. lia.
Qed.

Lemma clear_keeps_counters_witness :
  get_size (clear (sample_full_queue TAIL_DROP)) = 0%Z
  ∧ packets_enqueued (clear (sample_full_queue TAIL_DROP)) = 1%Z
  ∧ ¬ conserved (clear (sample_full_queue TAIL_DROP)).
Proof.
  destruct (clear_keeps_counters (sample_full_queue TAIL_DROP))
    as (Hsize & Henq & _ & _ & _ & Hbroken); [discriminate | reflexivity |].
  split; [exact Hsize|]. split; [exact Henq | exact Hbroken].
Defined.

(** X5: the delay statistics add up.  After any number of [dequeue] calls
    the queue's [total_queue_delay] has grown by the sum of the delays
    those calls returned and [packets_dequeued] by their number, and every
    returned delay is [now] minus the enqueue time of the item at that
    position of the queue. *)
Theorem delays_add_up self now n :
  (serve self now n).2 = map (served now) (take n (queue self))
  ∧ queue (serve self now n).1 = drop n (queue self)
  ∧ packets_dequeued (serve self now n).1
    = (packets_dequeued self + Z.of_nat (length (serve self now n).2))%Z
  ∧ (total_queue_delay (serve self now n).1
     == total_queue_delay self + Qsum (serve self now n).2.*2)%Q.
Proof.
  revert self. induction n as [|n IH]; intros self.
  - simpl. rewrite drop_0. split_and!; try done; [lia | unfold Qsum; simpl; lra].
  - cbn [serve]. unfold dequeue.
    destruct (queue self) as [|item items] eqn:Hq.
    + simpl. rewrite Hq. split_and!; try done; [lia | unfold Qsum; simpl; lra].
    + set (self1 := record_dequeue _ _).
      destruct (IH self1) as (Hres & Hrest & Hdeq & Hsum).
      destruct (serve self1 now n) as [self2 results]. simpl in *.
      subst results self1. unfold Qsum in *. simpl in *.
      rewrite Hrest, Hdeq. split_and!; try done; [lia|].
      set (s := foldr Qplus 0%Q _) in *. lra.
Qed.

End LinkQueueEdges.

(** ** Further properties of the packet *)

Section PacketHops.

Lemma move_one_hop now p :
  S (Packet.path_index p) < length (Packet.path p) →
  Packet.path_index (Packet.move_to_next_link now p).1 = S (Packet.path_index p)
  ∧ Packet.path (Packet.move_to_next_link now p).1 = Packet.path p
  ∧ Some (Packet.current_node_id (Packet.move_to_next_link now p).1)
    = Packet.path p !! S (Packet.path_index p)
  ∧ Packet.current_link_index (Packet.move_to_next_link now p).1
    = Packet.path_index p
  ∧ Packet.state (Packet.move_to_next_link now p).1
    = (if decide (S (S (Packet.path_index p)) = length (Packet.path p))
       then DELIVERED else IN_TRANSIT).
Proof.
  intros Hin. unfold Packet.move_to_next_link.
  destruct (Nat.leb_spec (length (Packet.path p)) (Packet.path_index p + 1));
    [lia|].
  destruct (lookup_lt_is_Some_2 (Packet.path p) (S (Packet.path_index p)) Hin)
    as [node Hnode].
  destruct (Z.leb_spec
              (Z.of_nat (length (Packet.path (Packet.enter_next_link now p))) - 1)
              (Z.of_nat (Packet.path_index (Packet.enter_next_link now p))));
    simpl in *; rewrite Hnode; simpl; rewrite Nat.sub_0_r;
    case_decide; try lia; done.
Qed.

(** X6: packets go hop by hop.  For a packet with [k >= 1] further nodes
    ahead of it on its path, [k] calls of [move_to_next_link] advance
    [path_index] by exactly [k] without changing the path, leave
    [current_node_id] at the path node of that index and
    [current_link_index] one below it, and leave the packet DELIVERED
    exactly when that node is the last of the path and IN_TRANSIT
    otherwise. *)
Theorem hop_by_hop k : ∀ now p,
  1 ≤ k →
  Packet.path_index p + k < length (Packet.path p) →
  Packet.path_index (hops k now p) = Packet.path_index p + k
  ∧ Packet.path (hops k now p) = Packet.path p
  ∧ Some (Packet.current_node_id (hops k now p))
    = Packet.path p !! (Packet.path_index p + k)
  ∧ Packet.current_link_index (hops k now p) = Packet.path_index p + k - 1
  ∧ Packet.state (hops k now p)
    = (if decide (Packet.path_index p + k + 1 = length (Packet.path p))
       then DELIVERED else IN_TRANSIT).
Proof.
  induction k as [|k IH]; intros now p Hk Hin; [lia|].
  cbn [hops].
  destruct (move_one_hop now p) as (Hidx & Hpath & Hnode & Hlink & Hstate); [lia|].
  destruct k as [|k].
  - cbn [hops]. rewrite Hidx, Hpath, Hlink, Hstate, Hnode.
    replace (Packet.path_index p + 1) with (S (Packet.path_index p)) by lia.
    split_and!; repeat case_decide; try done; lia.
  - destruct (IH now (Packet.move_to_next_link now p).1)
      as (Hidx' & Hpath' & Hnode' & Hlink' & Hstate'); [lia | rewrite Hidx, Hpath; lia|].
    rewrite Hidx', Hpath', Hlink', Hstate', Hnode', Hidx, Hpath.
    replace (S (Packet.path_index p) + S k) with (Packet.path_index p + S (S k))
      by lia.
    split_and!; repeat case_decide; try done; lia.
Qed.

Lemma hop_by_hop_witness :
  Packet.path_index (hops 2 9 sample_packet) = 2
  ∧ Packet.current_node_id (hops 2 9 sample_packet) = "N3"%string
  ∧ Packet.state (hops 2 9 sample_packet) = DELIVERED
  ∧ Packet.state (hops 1 9 sample_packet) = IN_TRANSIT.
Proof.
  destruct (hop_by_hop 2 9 sample_packet) as (Hidx & _ & Hnode & _ & Hstate);
    [lia | simpl; lia |].
  destruct (hop_by_hop 1 9 sample_packet) as (_ & _ & _ & _ & Hstate1);
    [lia | simpl; lia |].
  split; [exact Hidx|]. split; [by inversion Hnode|].
  split; [exact Hstate | exact Hstate1].
Defined.

End PacketHops.

(** ** Further properties of the congestion controller *)

Section ControllerLog.
Import CongestionController.

Lemma handle_drop_frame lid time cc :
  drop_history (_handle_packet_drop lid time cc) = drop_history cc
  ∧ total_packets_dropped (_handle_packet_drop lid time cc)
    = total_packets_dropped cc
  ∧ link_queues (_handle_packet_drop lid time cc) = link_queues cc.
Proof. unfold _handle_packet_drop. by destruct (congestion_windows cc !! lid). Qed.

Lemma handle_success_frame store lid cc cc' :
  _handle_packet_success store lid cc = Return cc' →
  drop_history cc' = drop_history cc
  ∧ total_packets_dropped cc' = total_packets_dropped cc
  ∧ link_queues cc' = link_queues cc
  ∧ congestion_events cc' = congestion_events cc.
Proof.
  unfold _handle_packet_success.
  destruct (congestion_windows cc !! lid); [|by inversion 1].
  destruct (Links.get lid store); [|done]. by inversion 1.
Qed.

(** What one admission attempt does to the drop log. *)
Lemma process_drop_log pkt link now draw w :
  ((process_packet_on_link pkt link now draw w).1 = Return false
   ∧ ∃ p l,
       packets w !! pkt = Some p
       ∧ Links.get link (NetworkManager.links (network_manager w)) = Some l
       ∧ drop_history (congestion_controller (process_packet_on_link pkt link now draw w).2)
         = drop_history (congestion_controller w)
           ++ [mkDrop (Packet.id p) (Link.id l) now]
       ∧ total_packets_dropped
           (congestion_controller (process_packet_on_link pkt link now draw w).2)
         = (total_packets_dropped (congestion_controller w) + 1)%Z)
  ∨ ((process_packet_on_link pkt link now draw w).1 ≠ Return false
     ∧ drop_history (congestion_controller (process_packet_on_link pkt link now draw w).2)
       = drop_history (congestion_controller w)
     ∧ total_packets_dropped
         (congestion_controller (process_packet_on_link pkt link now draw w).2)
       = total_packets_dropped (congestion_controller w)).
Proof.
  unfold process_packet_on_link. step.
  destruct (Links.get link _) as [l|] eqn:Hl; [|by right].
  destruct (link_queues (congestion_controller w) !! Link.id l) as [queue|];
    [|by right].
  destruct (LinkQueue.enqueue queue pkt now draw) as [q' acc].
  destruct acc; step.
  - right. destruct (enable_tcp_congestion (congestion_controller w)); [|done].
    destruct (_handle_packet_success _ _ _) as [cc'|e] eqn:Hs; [|done].
    apply handle_success_frame in Hs as (Hh & Ht & _). simpl in *.
    by rewrite Hh, Ht.
  - change (packets (with_congestion_controller _ w)) with (packets w).
    destruct (packets w !! pkt) as [p|] eqn:Hp; [|by right].
    left. destruct (enable_tcp_congestion (congestion_controller w)).
    + split; [done|]. exists p, l. simpl.
      destruct (handle_drop_frame (Link.id l) (sim_time w)
                  (count_drop (Packet.id p) (Link.id l) now
                     (set_link_queue (Link.id l) q' (congestion_controller w))))
        as (Hh & Ht & _).
      unfold sim_time in *. simpl in *. by rewrite Hh, Ht.
    + split; [done|]. by exists p, l.
Qed.

Lemma dequeue_packet_log link now w :
  drop_history (congestion_controller (dequeue_packet link now w).2)
  = drop_history (congestion_controller w)
  ∧ total_packets_dropped (congestion_controller (dequeue_packet link now w).2)
    = total_packets_dropped (congestion_controller w).
Proof.
  unfold dequeue_packet. step.
  destruct (Links.get link _) as [l|]; [|done].
  destruct (link_queues (congestion_controller w) !! Link.id l) as [queue|];
    [|done].
  destruct (LinkQueue.dequeue queue now) as [q' result].
  by destruct result.
Qed.

(** X7: the drop history is an append-only log that accounts for
    [total_packets_dropped].  An admission attempt that returns
    not-accepted appends exactly one record, holding the packet's id, the
    link's id and the time of the attempt, and adds 1 to
    [total_packets_dropped]; any other outcome leaves both as they were.
    So over every history the log only grows at its end and
    [total_packets_dropped] grows by the number of records added. *)
Theorem drop_history_is_a_log w history pkt link now draw :
  (∃ added,
     drop_history (congestion_controller (run_history w history))
     = drop_history (congestion_controller w) ++ added
     ∧ total_packets_dropped (congestion_controller (run_history w history))
       = (total_packets_dropped (congestion_controller w)
          + Z.of_nat (length added))%Z)
  ∧ (((process_packet_on_link pkt link now draw w).1 = Return false
      ∧ ∃ p l,
          packets w !! pkt = Some p
          ∧ Links.get link (NetworkManager.links (network_manager w)) = Some l
          ∧ drop_history
              (congestion_controller (process_packet_on_link pkt link now draw w).2)
            = drop_history (congestion_controller w)
              ++ [mkDrop (Packet.id p) (Link.id l) now]
          ∧ total_packets_dropped
              (congestion_controller (process_packet_on_link pkt link now draw w).2)
            = (total_packets_dropped (congestion_controller w) + 1)%Z)
     ∨ ((process_packet_on_link pkt link now draw w).1 ≠ Return false
        ∧ drop_history
            (congestion_controller (process_packet_on_link pkt link now draw w).2)
          = drop_history (congestion_controller w)
        ∧ total_packets_dropped
            (congestion_controller (process_packet_on_link pkt link now draw w).2)
          = total_packets_dropped (congestion_controller w))).
Proof.
  split; [|apply process_drop_log].
  clear. revert w. induction history as [|e history IH]; intros w.
  - exists []. rewrite app_nil_r. simpl. split; [done|lia].
  - cbn [run_history fold_left]. fold (run_history (run_event w e) history).
    destruct (IH (run_event w e)) as (added & Hlog & Htotal).
    rewrite Hlog, Htotal. destruct e as [pkt link now draw|link now|now]; simpl.
    + destruct (process_drop_log pkt link now draw w)
        as [(_ & p & l & _ & _ & Hh & Ht)|(_ & Hh & Ht)]; rewrite Hh, Ht.
      * eexists (_ :: added). rewrite <- app_assoc. split; [done|]. simpl. lia.
      * by exists added.
    + destruct (dequeue_packet_log link now w) as [Hh Ht]. rewrite Hh, Ht.
      by exists added.
    + by exists added.
Qed.

End ControllerLog.

Section ControllerStatistics.
Import CongestionController.

(** The queues of the controller after an admission attempt: as before, or
    with the link's queue replaced by the result of [enqueue]. *)
Lemma process_queues pkt link now draw w :
  link_queues (congestion_controller (process_packet_on_link pkt link now draw w).2)
  = link_queues (congestion_controller w)
  ∨ ∃ l q,
      Links.get link (NetworkManager.links (network_manager w)) = Some l
      ∧ link_queues (congestion_controller w) !! Link.id l = Some q
      ∧ link_queues
          (congestion_controller (process_packet_on_link pkt link now draw w).2)
        = <[Link.id l := (LinkQueue.enqueue q pkt now draw).1]>
            (link_queues (congestion_controller w)).
Proof.
  unfold process_packet_on_link. step.
  destruct (Links.get link _) as [l|] eqn:Hl; [|by left].
  destruct (link_queues (congestion_controller w) !! Link.id l) as [queue|] eqn:Hq;
    [|by left].
  right. exists l, queue. split; [done|]. split; [done|].
  destruct (LinkQueue.enqueue queue pkt now draw) as [q' acc].
  destruct acc; step.
  - destruct (enable_tcp_congestion (congestion_controller w)); [|done].
    destruct (_handle_packet_success _ _ _) as [cc'|e] eqn:Hs; [|done].
    apply handle_success_frame in Hs as (_ & _ & Hqs & _). simpl in *.
    by rewrite Hqs.
  - change (packets (with_congestion_controller _ w)) with (packets w).
    destruct (packets w !! pkt) as [p|]; [|done].
    destruct (enable_tcp_congestion (congestion_controller w)); [|done].
    simpl.
    destruct (handle_drop_frame (Link.id l) (sim_time w)
                (count_drop (Packet.id p) (Link.id l) now
                   (set_link_queue (Link.id l) q' (congestion_controller w))))
      as (_ & _ & Hqs).
    unfold sim_time in *. simpl in *. by rewrite Hqs.
Qed.

Lemma dequeue_packet_queues link now w :
  link_queues (congestion_controller (dequeue_packet link now w).2)
  = link_queues (congestion_controller w)
  ∨ ∃ l q,
      Links.get link (NetworkManager.links (network_manager w)) = Some l
      ∧ link_queues (congestion_controller w) !! Link.id l = Some q
      ∧ link_queues (congestion_controller (dequeue_packet link now w).2)
        = <[Link.id l := (LinkQueue.dequeue q now).1]>
            (link_queues (congestion_controller w)).
Proof.
  unfold dequeue_packet. step.
  destruct (Links.get link _) as [l|] eqn:Hl; [|by left].
  destruct (link_queues (congestion_controller w) !! Link.id l) as [queue|] eqn:Hq;
    [|by left].
  right. exists l, queue. split; [done|]. split; [done|].
  destruct (LinkQueue.dequeue queue now) as [q' result].
  by destruct result.
Qed.

Lemma enqueue_sane q pkt now draw :
  (0 ≤ LinkQueue.packets_dropped q ≤ LinkQueue.packets_enqueued q)%Z →
  (0 ≤ LinkQueue.packets_dropped (LinkQueue.enqueue q pkt now draw).1
     ≤ LinkQueue.packets_enqueued (LinkQueue.enqueue q pkt now draw).1)%Z.
Proof.
  intros Hq. destruct (enqueue_effect q pkt now draw) as (He & _ & Hd & _).
  rewrite He, Hd. destruct (LinkQueue.is_full q); lia.
Qed.

Lemma dequeue_sane q now :
  (0 ≤ LinkQueue.packets_dropped q ≤ LinkQueue.packets_enqueued q)%Z →
  (0 ≤ LinkQueue.packets_dropped (LinkQueue.dequeue q now).1
     ≤ LinkQueue.packets_enqueued (LinkQueue.dequeue q now).1)%Z.
Proof. unfold LinkQueue.dequeue. by destruct (LinkQueue.queue q). Qed.

Lemma run_history_sane history : ∀ w,
  counters_sane (congestion_controller w) →
  counters_sane (congestion_controller (run_history w history)).
Proof.
  induction history as [|e history IH]; intros w Hsane; [done|].
  apply IH. unfold counters_sane in *.
  destruct e as [pkt link now draw|link now|now]; simpl; [| |done].
  - destruct (process_queues pkt link now draw w) as [->|(l & q & _ & Hq & ->)];
      [done|].
    apply map_Forall_insert_2; [|done]. apply enqueue_sane. by eapply Hsane.
  - destruct (dequeue_packet_queues link now w) as [->|(l & q & _ & Hq & ->)];
      [done|].
    apply map_Forall_insert_2; [|done]. apply dequeue_sane. by eapply Hsane.
Qed.

Lemma sums_ordered (queues : list LinkQueue.t) :
  Forall (λ q, (0 ≤ LinkQueue.packets_dropped q ≤ LinkQueue.packets_enqueued q)%Z)
         queues →
  (0 ≤ foldr Z.add 0 (LinkQueue.packets_dropped <$> queues)
     ≤ foldr Z.add 0 (LinkQueue.packets_enqueued <$> queues))%Z.
Proof.
  induction 1 as [|q queues Hq _ IH]; [simpl; lia|].
  rewrite !fmap_cons. cbn [foldr]. lia.
Qed.

(** The totals reported for a controller with sane counters. *)
Lemma statistics_ordered cc :
  counters_sane cc →
  (0 ≤ CongestionReports.total_dropped (CongestionReports.get_statistics cc)
     ≤ CongestionReports.total_enqueued (CongestionReports.get_statistics cc))%Z
  ∧ (0 <= CongestionReports.drop_rate (CongestionReports.get_statistics cc)
       <= 100)%Q.
Proof.
  intros Hsane. unfold CongestionReports.get_statistics. simpl.
  unfold CongestionReports.sum_over_queues.
  assert (Hsums := sums_ordered (map_to_list (link_queues cc)).*2).
  destruct Hsums as [H0 Hle].
  { apply Forall_forall. intros q Hq.
    apply list_elem_of_fmap in Hq as ([k q'] & -> & Hq).
    apply elem_of_map_to_list in Hq. by eapply Hsane. }
  split; [done|].
  set (d := foldr Z.add 0%Z (LinkQueue.packets_dropped <$> _)) in *.
  set (e := foldr Z.add 0%Z (LinkQueue.packets_enqueued <$> _)) in *.
  destruct (Z.ltb_spec 0 e) as [Hpos|]; [|lra].
  assert (Hq : (0 < inject_Z e)%Q)
    by (change 0%Q with (inject_Z 0); by rewrite <- Zlt_Qlt).
  assert (Hd0 : (0 <= inject_Z d)%Q)
    by (change 0%Q with (inject_Z 0); by rewrite <- Zle_Qle).
  assert (Hde : (inject_Z d <= inject_Z e)%Q) by (by rewrite <- Zle_Qle).
  assert (Hr0 : (0 <= inject_Z d / inject_Z e)%Q).
  { apply Qle_shift_div_l; [done|]. lra. }
  assert (Hr1 : (inject_Z d / inject_Z e <= 1)%Q).
  { apply Qle_shift_div_r; [done|]. lra. }
  set (r := (inject_Z d / inject_Z e)%Q) in *. lra.
Qed.

(** X8: the reported drop rate is a percentage.  For a controller whose
    queues have each dropped no more packets than were offered to them (as
    in a new controller and after [create_link_queue]), after every
    history of admissions, departures and clock advances [get_statistics]
    reports [0 <= total_dropped <= total_enqueued] and a [drop_rate]
    between 0 and 100. *)
Theorem drop_rate_is_a_percentage w history :
  counters_sane (congestion_controller w) →
  (0 ≤ CongestionReports.total_dropped
         (CongestionReports.get_statistics
            (congestion_controller (run_history w history)))
     ≤ CongestionReports.total_enqueued
         (CongestionReports.get_statistics
            (congestion_controller (run_history w history))))%Z
  ∧ (0 <= CongestionReports.drop_rate
            (CongestionReports.get_statistics
               (congestion_controller (run_history w history)))
       <= 100)%Q.
Proof. intros Hsane. by apply statistics_ordered, run_history_sane. Qed.

Lemma sample_simulator_sane : counters_sane (congestion_controller sample_simulator).
Proof.
  unfold counters_sane. simpl.
  repeat (apply map_Forall_insert_2; [simpl; lia|]).
  apply map_Forall_empty.
Qed.

Lemma drop_rate_is_a_percentage_witness :
  (0 <= CongestionReports.drop_rate
          (CongestionReports.get_statistics
             (congestion_controller (run_history sample_simulator sample_history)))
     <= 100)%Q.
Proof.
  apply (drop_rate_is_a_percentage sample_simulator sample_history).
  apply sample_simulator_sane.
Defined.

End ControllerStatistics.

Section ControllerReset.
Import CongestionController.

Lemma sum_over_cleared (f : LinkQueue.t → Z) queues :
  (∀ q, f (LinkQueue.clear q) = f q) →
  CongestionReports.sum_over_queues f (LinkQueue.clear <$> queues)
  = CongestionReports.sum_over_queues f queues.
Proof.
  intros Hf. unfold CongestionReports.sum_over_queues.
  rewrite map_to_list_fmap. f_equal.
  rewrite <- !list_fmap_compose. apply list_fmap_ext. by intros _ [k q] _; simpl.
Qed.

(** X9: [clear_all] of the controller empties every queue and the two
    logs and zeroes [total_packets_dropped], but it resets neither the
    congestion windows nor the counters inside the queues: the
    [total_dropped] and [total_enqueued] that [get_statistics] reports are
    the same after it as before, and the reported average depth is 0. *)
Theorem clear_all_keeps_queue_counters cc :
  total_packets_dropped (CongestionReports.clear_all cc) = 0%Z
  ∧ drop_history (CongestionReports.clear_all cc) = []
  ∧ congestion_events (CongestionReports.clear_all cc) = []
  ∧ (∀ lid,
       link_queues (CongestionReports.clear_all cc) !! lid
       = LinkQueue.clear <$> link_queues cc !! lid)
  ∧ congestion_windows (CongestionReports.clear_all cc) = congestion_windows cc
  ∧ CongestionReports.total_dropped
      (CongestionReports.get_statistics (CongestionReports.clear_all cc))
    = CongestionReports.total_dropped (CongestionReports.get_statistics cc)
  ∧ CongestionReports.total_enqueued
      (CongestionReports.get_statistics (CongestionReports.clear_all cc))
    = CongestionReports.total_enqueued (CongestionReports.get_statistics cc)
  ∧ (CongestionReports.avg_queue_depth
       (CongestionReports.get_statistics (CongestionReports.clear_all cc)) == 0)%Q.
Proof.
  split_and!; try done.
  - intros lid. simpl. by rewrite lookup_fmap.
  - simpl. by apply sum_over_cleared.
  - simpl. by apply sum_over_cleared.
  - simpl. case_bool_decide; [done|].
    assert (Hzero : CongestionReports.sum_over_queues LinkQueue.get_size
                      (LinkQueue.clear <$> link_queues cc) = 0%Z).
    { unfold CongestionReports.sum_over_queues. rewrite map_to_list_fmap.
      induction (map_to_list (link_queues cc)) as [|[k q] l IH]; [done|].
      rewrite !fmap_cons. cbn [foldr]. rewrite IH. done. }
    rewrite Hzero. unfold Qdiv. apply Qmult_0_l.
Qed.

(** X10: a link for which the controller holds no queue is open: an
    admission attempt on it is accepted and a departure returns nothing,
    and neither changes the state of the simulator. *)
Theorem link_without_queue_is_open pkt link now draw w l :
  Links.get link (NetworkManager.links (network_manager w)) = Some l →
  link_queues (congestion_controller w) !! Link.id l = None →
  process_packet_on_link pkt link now draw w = (Return true, w)
  ∧ dequeue_packet link now w = (Return None, w).
Proof.
  intros Hl Hq. unfold process_packet_on_link, dequeue_packet. step.
  by rewrite Hl, Hq.
Qed.

Lemma link_without_queue_is_open_witness :
  process_packet_on_link 0 "L1" 3 0 sample_world = (Return true, sample_world)
  ∧ dequeue_packet "L1" 3 sample_world = (Return None, sample_world).
Proof.
  apply (link_without_queue_is_open 0 "L1" 3 0 sample_world
           (Link.mk "L1" "N1" "N2" 5 100 2 0 0 "black")); reflexivity.
Defined.

End ControllerReset.

Section QueueMirror.
Import CongestionController.

Lemma put_put key l1 l2 (store : LinkStore) :
  Links.put key l2 (Links.put key l1 store) = Links.put key l2 store.
Proof.
  induction store as [|[k l0] store IH]; [done|]. simpl.
  destruct (String.eqb k key) eqn:Hk; simpl; rewrite Hk; [done|]. by rewrite IH.
Qed.

Lemma mutate_link_links link f w l :
  Links.get link (NetworkManager.links (network_manager w)) = Some l →
  NetworkManager.links (network_manager (mutate_link link f w))
  = Links.put link (f l) (NetworkManager.links (network_manager w)).
Proof. intros Hl. unfold mutate_link. simpl. by rewrite Hl. Qed.

Lemma mutate_link_twice link f g w l :
  Links.get link (NetworkManager.links (network_manager w)) = Some l →
  NetworkManager.links
    (network_manager (mutate_link link g (mutate_link link f w)))
  = Links.put link (g (f l)) (NetworkManager.links (network_manager w)).
Proof.
  intros Hl.
  rewrite (mutate_link_links link g _ (f l)).
  - rewrite (mutate_link_links link f w l Hl). apply put_put.
  - rewrite (mutate_link_links link f w l Hl), get_put, String.eqb_refl.
    by rewrite Hl.
Qed.

(** The link store and the queues after an admission attempt. *)
Lemma process_effect pkt link now draw w :
  let w' := (process_packet_on_link pkt link now draw w).2 in
  (NetworkManager.links (network_manager w') = NetworkManager.links (network_manager w)
   ∧ link_queues (congestion_controller w') = link_queues (congestion_controller w))
  ∨ ∃ l q,
      Links.get link (NetworkManager.links (network_manager w)) = Some l
      ∧ link_queues (congestion_controller w) !! Link.id l = Some q
      ∧ link_queues (congestion_controller w')
        = <[Link.id l := (LinkQueue.enqueue q pkt now draw).1]>
            (link_queues (congestion_controller w))
      ∧ (((LinkQueue.enqueue q pkt now draw).2 = true
          ∧ NetworkManager.links (network_manager w')
            = Links.put link
                (Link.update_queue_color
                   (Link.set_current_queue
                      (LinkQueue.get_size (LinkQueue.enqueue q pkt now draw).1) l))
                (NetworkManager.links (network_manager w)))
         ∨ ((LinkQueue.enqueue q pkt now draw).2 = false
            ∧ (NetworkManager.links (network_manager w')
               = NetworkManager.links (network_manager w)
               ∨ NetworkManager.links (network_manager w')
                 = Links.put link (Link.update_queue_color l)
                     (NetworkManager.links (network_manager w))))).
Proof.
  intros w'. subst w'.
  destruct (process_queues pkt link now draw w)
    as [Hsame|(l & q & Hl & Hq & Hqueues)].
  - (* no queue was touched: no link was touched either *)
    revert Hsame. unfold process_packet_on_link. step.
    destruct (Links.get link _) as [l|] eqn:Hl; [|by left].
    destruct (link_queues (congestion_controller w) !! Link.id l) as [queue|] eqn:Hq;
      [|by left].
    intros Hsame. right. exists l, queue. split; [done|]. split; [done|].
    destruct (LinkQueue.enqueue queue pkt now draw) as [q' acc] eqn:He.
    assert (Hins : link_queues (congestion_controller w)
                   = <[Link.id l := q']> (link_queues (congestion_controller w))).
    { revert Hsame. destruct acc; step.
      - destruct (enable_tcp_congestion (congestion_controller w)); [|done].
        destruct (_handle_packet_success _ _ _) as [cc'|e] eqn:Hs; [|done].
        apply handle_success_frame in Hs as (_ & _ & Hqs & _). simpl in *.
        by rewrite Hqs.
      - change (packets (with_congestion_controller _ w)) with (packets w).
        destruct (packets w !! pkt) as [p|]; [|done].
        destruct (enable_tcp_congestion (congestion_controller w)); [|done].
        simpl.
        destruct (handle_drop_frame (Link.id l) (sim_time w)
                    (count_drop (Packet.id p) (Link.id l) now
                       (set_link_queue (Link.id l) q' (congestion_controller w))))
          as (_ & _ & Hqs).
        unfold sim_time in *. simpl in *. by rewrite Hqs. }
    split; [by rewrite Hsame|]. simpl.
    destruct acc; step.
    + left. split; [done|].
      assert (Hl1 : Links.get link
                (NetworkManager.links
                   (network_manager
                      (with_congestion_controller
                         (set_link_queue (Link.id l) q') w))) = Some l) by done.
      pose proof (mutate_link_twice link
                    (Link.set_current_queue (LinkQueue.get_size q'))
                    Link.update_queue_color _ l Hl1) as Hstore.
      destruct (enable_tcp_congestion (congestion_controller w)); [|done].
      by destruct (_handle_packet_success _ _ _).
    + right. split; [done|].
      change (packets (with_congestion_controller _ w)) with (packets w).
      destruct (packets w !! pkt) as [p|]; [|by left].
      right.
      assert (Hl1 : Links.get link
                (NetworkManager.links
                   (network_manager
                      (with_congestion_controller
                         (count_drop (Packet.id p) (Link.id l) now)
                         (with_congestion_controller
                            (set_link_queue (Link.id l) q') w)))) = Some l) by done.
      pose proof (mutate_link_links link Link.update_queue_color _ l Hl1) as Hstore.
      by destruct (enable_tcp_congestion (congestion_controller w)).
  - right. exists l, q. split; [done|]. split; [done|]. split; [done|].
    clear Hqueues. unfold process_packet_on_link. step. rewrite Hl, Hq.
    destruct (LinkQueue.enqueue q pkt now draw) as [q' acc] eqn:He. simpl.
    destruct acc; step.
    + left. split; [done|].
      assert (Hl1 : Links.get link
                (NetworkManager.links
                   (network_manager
                      (with_congestion_controller
                         (set_link_queue (Link.id l) q') w))) = Some l) by done.
      pose proof (mutate_link_twice link
                    (Link.set_current_queue (LinkQueue.get_size q'))
                    Link.update_queue_color _ l Hl1) as Hstore.
      destruct (enable_tcp_congestion (congestion_controller w)); [|done].
      by destruct (_handle_packet_success _ _ _).
    + right. split; [done|].
      change (packets (with_congestion_controller _ w)) with (packets w).
      destruct (packets w !! pkt) as [p|]; [|by left].
      right.
      assert (Hl1 : Links.get link
                (NetworkManager.links
                   (network_manager
                      (with_congestion_controller
                         (count_drop (Packet.id p) (Link.id l) now)
                         (with_congestion_controller
                            (set_link_queue (Link.id l) q') w)))) = Some l) by done.
      pose proof (mutate_link_links link Link.update_queue_color _ l Hl1) as Hstore.
      by destruct (enable_tcp_congestion (congestion_controller w)).
Qed.

End QueueMirror.

Section QueueMirrorClaim.
Import CongestionController.

Lemma update_queue_color_frame l :
  Link.id (Link.update_queue_color l) = Link.id l
  ∧ Link.current_queue (Link.update_queue_color l) = Link.current_queue l.
Proof.
  unfold Link.update_queue_color.
  destruct (_ =? _)%Z; [done|]. destruct (Qle_bool _ _); [done|].
  by destruct (Qle_bool _ _).
Qed.

Lemma dequeue_packet_effect link now w :
  let w' := (dequeue_packet link now w).2 in
  (NetworkManager.links (network_manager w') = NetworkManager.links (network_manager w)
   ∧ link_queues (congestion_controller w') = link_queues (congestion_controller w))
  ∨ ∃ l q,
      Links.get link (NetworkManager.links (network_manager w)) = Some l
      ∧ link_queues (congestion_controller w) !! Link.id l = Some q
      ∧ link_queues (congestion_controller w')
        = <[Link.id l := (LinkQueue.dequeue q now).1]>
            (link_queues (congestion_controller w))
      ∧ NetworkManager.links (network_manager w')
        = match (LinkQueue.dequeue q now).2 with
          | Some _ =>
              Links.put link
                (Link.update_queue_color
                   (Link.set_current_queue
                      (LinkQueue.get_size (LinkQueue.dequeue q now).1) l))
                (NetworkManager.links (network_manager w))
          | None => NetworkManager.links (network_manager w)
          end.
Proof.
  intros w'. subst w'. unfold dequeue_packet. step.
  destruct (Links.get link _) as [l|] eqn:Hl; [|by left].
  destruct (link_queues (congestion_controller w) !! Link.id l) as [queue|] eqn:Hq;
    [|by left].
  right. exists l, queue. split; [done|]. split; [done|].
  destruct (LinkQueue.dequeue queue now) as [q' result].
  destruct result; step; [|done]. split; [done|].
  assert (Hl1 : Links.get link
            (NetworkManager.links
               (network_manager
                  (with_congestion_controller
                     (set_link_queue (Link.id l) q') w))) = Some l) by done.
  apply (mutate_link_twice link
           (Link.set_current_queue (LinkQueue.get_size q'))
           Link.update_queue_color _ l Hl1).
Qed.

Lemma keyed_put link l (store : LinkStore) :
  keyed_by_id store → Link.id l = link → keyed_by_id (Links.put link l store).
Proof.
  intros Hkeyed Hid key l'. rewrite get_put.
  destruct (String.eqb link key) eqn:Hk.
  - apply String.eqb_eq in Hk as <-.
    destruct (Links.get link store); [|done]. by inversion 1; subst.
  - apply Hkeyed.
Qed.

Lemma rejected_keeps_size q pkt now draw :
  (LinkQueue.enqueue q pkt now draw).2 = false →
  LinkQueue.get_size (LinkQueue.enqueue q pkt now draw).1 = LinkQueue.get_size q.
Proof.
  intros Hrej. destruct (enqueue_effect q pkt now draw) as (_ & _ & _ & Hres).
  rewrite enqueue_size. rewrite Hrej in Hres.
  by destruct (LinkQueue.is_full q).
Qed.

Lemma empty_dequeue_keeps_size q now :
  (LinkQueue.dequeue q now).2 = None →
  LinkQueue.get_size (LinkQueue.dequeue q now).1 = LinkQueue.get_size q.
Proof. unfold LinkQueue.dequeue. by destruct (LinkQueue.queue q). Qed.

Lemma run_event_mirrored lid e w :
  keyed_by_id (NetworkManager.links (network_manager w)) →
  queue_mirrored lid w →
  keyed_by_id (NetworkManager.links (network_manager (run_event w e)))
  ∧ queue_mirrored lid (run_event w e).
Proof.
  intros Hkeyed Hmirror. destruct e as [pkt link now draw|link now|now];
    cbn [run_event]; [| |done].
  - destruct (process_effect pkt link now draw w)
      as [[Hs Hq]|(l & q & Hl & Hq & Hqueues & Hstore)].
    { unfold queue_mirrored. by rewrite Hs, Hq. }
    pose proof (Hkeyed _ _ Hl) as Hid.
    destruct (update_queue_color_frame l) as [Hcid Hccq].
    destruct (update_queue_color_frame
                (Link.set_current_queue
                   (LinkQueue.get_size (LinkQueue.enqueue q pkt now draw).1) l))
      as [Hcid' Hccq'].
    unfold queue_mirrored. rewrite Hqueues.
    destruct Hstore as [[Hacc ->]|[Hrej [-> | ->]]].
    + split; [apply keyed_put; [done | by rewrite Hcid']|].
      intros l' q'. rewrite get_put, Hid.
      destruct (String.eqb_spec link lid) as [->|Hne].
      * rewrite Hl, lookup_insert_eq. intros [= <-] [= <-]. by rewrite Hccq'.
      * rewrite lookup_insert_ne by done. apply Hmirror.
    + split; [done|]. intros l' q'. rewrite Hid.
      destruct (decide (link = lid)) as [->|Hne].
      * rewrite lookup_insert_eq. intros Hl' [= <-].
        rewrite rejected_keeps_size by done. apply Hmirror; [done|].
        by rewrite <- Hid.
      * rewrite lookup_insert_ne by done. apply Hmirror.
    + split; [apply keyed_put; [done | by rewrite Hcid]|].
      intros l' q'. rewrite get_put, Hid.
      destruct (String.eqb_spec link lid) as [->|Hne].
      * rewrite Hl, lookup_insert_eq. intros [= <-] [= <-].
        rewrite rejected_keeps_size, Hccq by done. apply Hmirror; [done|].
        by rewrite <- Hid.
      * rewrite lookup_insert_ne by done. apply Hmirror.
  - destruct (dequeue_packet_effect link now w)
      as [[Hs Hq]|(l & q & Hl & Hq & Hqueues & Hstore)].
    { unfold queue_mirrored. by rewrite Hs, Hq. }
    pose proof (Hkeyed _ _ Hl) as Hid.
    destruct (update_queue_color_frame
                (Link.set_current_queue
                   (LinkQueue.get_size (LinkQueue.dequeue q now).1) l))
      as [Hcid' Hccq'].
    unfold queue_mirrored. rewrite Hqueues, Hstore.
    destruct (LinkQueue.dequeue q now).2 eqn:Hres.
    + split; [apply keyed_put; [done | by rewrite Hcid']|].
      intros l' q'. rewrite get_put, Hid.
      destruct (String.eqb_spec link lid) as [->|Hne].
      * rewrite Hl, lookup_insert_eq. intros [= <-] [= <-]. by rewrite Hccq'.
      * rewrite lookup_insert_ne by done. apply Hmirror.
    + split; [done|]. intros l' q'. rewrite Hid.
      destruct (decide (link = lid)) as [->|Hne].
      * rewrite lookup_insert_eq. intros Hl' [= <-].
        rewrite empty_dequeue_keeps_size by done. apply Hmirror; [done|].
        by rewrite <- Hid.
      * rewrite lookup_insert_ne by done. apply Hmirror.
Qed.

(** X11: the occupancy shown on a link is the length of its queue.  When
    every link object is stored under its own id and a link's
    [current_queue] equals the length of the link's queue (as when both are
    new), it still does after every history of admissions, departures and
    clock advances, whatever their outcomes. *)
Theorem current_queue_mirrors_queue lid history : ∀ w,
  keyed_by_id (NetworkManager.links (network_manager w)) →
  queue_mirrored lid w →
  queue_mirrored lid (run_history w history).
Proof.
  induction history as [|e history IH]; intros w Hkeyed Hmirror; [done|].
  destruct (run_event_mirrored lid e w Hkeyed Hmirror) as [Hkeyed' Hmirror'].
  by apply IH.
Qed.

Lemma keyed_by_id_entries (store : LinkStore) :
  Forall (λ entry, Link.id entry.2 = entry.1) store → keyed_by_id store.
Proof.
  induction 1 as [|[k l0] store Hk _ IH]; intros key l; [done|].
  cbn [Links.get]. destruct (String.eqb_spec k key) as [<-|_]; [|apply IH].
  by intros [= <-].
Qed.

Lemma sample_keyed :
  keyed_by_id (NetworkManager.links (network_manager sample_simulator)).
Proof. apply keyed_by_id_entries. by repeat constructor. Qed.

Lemma current_queue_mirrors_queue_witness :
  queue_mirrored "L1" (run_history sample_simulator sample_history).
Proof.
  apply (current_queue_mirrors_queue "L1" sample_history sample_simulator).
  - apply sample_keyed.
  - intros l q Hl Hq. vm_compute in Hl, Hq. by inversion Hl; inversion Hq.
Defined.

End QueueMirrorClaim.

Section AdmissionDecision.
Import CongestionController.

(** X12: the congestion window never gates admission.  On a simulator
    whose links are stored under their ids, an admission attempt for an
    existing packet on a link that has a queue returns exactly what
    [enqueue] returns: rejected when the queue is full under tail drop,
    accepted otherwise, whatever the link's congestion window is. *)
Theorem admission_ignores_window pkt link now draw w l q :
  keyed_by_id (NetworkManager.links (network_manager w)) →
  Links.get link (NetworkManager.links (network_manager w)) = Some l →
  link_queues (congestion_controller w) !! link = Some q →
  is_Some (packets w !! pkt) →
  (process_packet_on_link pkt link now draw w).1
  = Return (if LinkQueue.is_full q
            then match LinkQueue.drop_policy q with
                 | TAIL_DROP => false
                 | _ => true
                 end
            else true).
Proof.
  intros Hkeyed Hl Hq [p Hp]. pose proof (Hkeyed _ _ Hl) as Hid.
  destruct (enqueue_effect q pkt now draw) as (_ & _ & _ & <-).
  unfold process_packet_on_link. step. rewrite Hl, Hid, Hq.
  destruct (LinkQueue.enqueue q pkt now draw) as [q' acc]. simpl.
  destruct acc; step.
  - destruct (enable_tcp_congestion (congestion_controller w)); [|done].
    unfold _handle_packet_success.
    destruct (congestion_windows _ !! link); [|done].
    assert (Hl1 : Links.get link
              (NetworkManager.links
                 (network_manager
                    (with_congestion_controller (set_link_queue link q') w)))
            = Some l) by done.
    rewrite (mutate_link_twice link _ _ _ l Hl1), get_put, String.eqb_refl.
    simpl. by rewrite Hl.
  - change (packets (with_congestion_controller _ w)) with (packets w).
    rewrite Hp. by destruct (enable_tcp_congestion (congestion_controller w)).
Qed.

Lemma admission_ignores_window_witness :
  (process_packet_on_link 0 "L2" 4 0
     (run_event sample_created (Admission 0 "L2" 0 0))).1
  = Return false.
Proof.
  apply (admission_ignores_window 0 "L2" 4 0
           (run_event sample_created (Admission 0 "L2" 0 0))
           (Link.mk "L2" "N2" "N3" 7 50 1 1 0 "red")
           (LinkQueue.enqueue (LinkQueue.new "L2" 1 TAIL_DROP) 0 0 0).1).
  - apply keyed_by_id_entries. by repeat constructor.
  - reflexivity.
  - reflexivity.
  - by eexists.
Defined.

End AdmissionDecision.

(** ** Further properties of the topology and the router *)

Section LinkLookup.

Lemma joins_sym a b l : Link.joins a b l = Link.joins b a l.
Proof. unfold Link.joins. apply orb_comm. Qed.

Lemma joins_endpoints a b l :
  Link.joins a b l = true ↔
  (Link.node_a l = a ∧ Link.node_b l = b) ∨ (Link.node_a l = b ∧ Link.node_b l = a).
Proof.
  unfold Link.joins. rewrite orb_true_iff, !andb_true_iff, !String.eqb_eq. done.
Qed.

(** X13: [get_link_by_nodes] does not depend on the order of its two
    arguments.  A link it returns is an entry of the store whose endpoints
    are the two nodes, and no earlier entry joins them; it returns nothing
    exactly when no link of the store joins the two nodes. *)
Theorem get_link_by_nodes_finds a b (store : LinkStore) :
  Links.get_link_by_nodes a b store = Links.get_link_by_nodes b a store
  ∧ (∀ k l, Links.get_link_by_nodes a b store = Some (k, l) →
       ∃ before after,
         store = before ++ (k, l) :: after
         ∧ Forall (λ entry, Link.joins a b entry.2 = false) before
         ∧ ((Link.node_a l = a ∧ Link.node_b l = b)
            ∨ (Link.node_a l = b ∧ Link.node_b l = a)))
  ∧ (Links.get_link_by_nodes a b store = None ↔
     Forall (λ entry, Link.joins a b entry.2 = false) store).
Proof.
  split_and!.
  - induction store as [|[k l] store IH]; [done|]. simpl.
    by rewrite (joins_sym b a), IH.
  - induction store as [|[k0 l0] store IH]; [done|]. intros k l. simpl.
    destruct (Link.joins a b l0) eqn:Hj.
    + intros [= <- <-]. exists [], store. split; [done|]. split; [done|].
      by apply joins_endpoints.
    + intros Hfind. destruct (IH k l Hfind) as (before & after & -> & Hb & He).
      exists ((k0, l0) :: before), after. split; [done|]. split; [|done].
      by constructor.
  - induction store as [|[k l] store IH]; [done|]. simpl.
    destruct (Link.joins a b l) eqn:Hj.
    + split; [done|]. inversion 1; simpl in *; congruence.
    + rewrite IH. split; [by constructor|by inversion 1].
Qed.

End LinkLookup.

Section GraphOfLinks.

Lemma get_edge_data_add_node n (g : Graph.t) x y :
  Graph.get_edge_data (Graph.add_node n g) x y = Graph.get_edge_data g x y.
Proof.
  unfold Graph.add_node, Graph.get_edge_data.
  destruct (g !! n) eqn:Hn; [done|].
  destruct (decide (x = n)) as [->|Hne].
  - by rewrite lookup_insert_eq, Hn.
  - by rewrite lookup_insert_ne.
Qed.

Lemma get_edge_data_insert u v d (g : Graph.t) x y :
  Graph.get_edge_data (<[u := <[v := d]> (default ∅ (g !! u))]> g) x y
  = if decide (x = u ∧ y = v) then Some d else Graph.get_edge_data g x y.
Proof.
  unfold Graph.get_edge_data.
  destruct (decide (x = u)) as [->|Hne].
  - rewrite lookup_insert_eq. simpl.
    destruct (decide (y = v)) as [->|Hne].
    + rewrite lookup_insert_eq. by rewrite decide_True.
    + rewrite lookup_insert_ne by done. rewrite decide_False by (intros [? ?]; congruence).
      by destruct (g !! u).
  - rewrite lookup_insert_ne by done. by rewrite decide_False by (intros [? ?]; congruence).
Qed.

(** The edges of the graph after [add_edge]. *)
Lemma get_edge_data_add_edge u v d (g : Graph.t) x y :
  Graph.get_edge_data (Graph.add_edge u v d g) x y
  = if decide ((x = u ∧ y = v) ∨ (x = v ∧ y = u)) then Some d
    else Graph.get_edge_data g x y.
Proof.
  unfold Graph.add_edge. rewrite !get_edge_data_insert, !get_edge_data_add_node.
  repeat case_decide; try done; exfalso; intuition congruence.
Qed.

Lemma fold_add_edge_sym (store : LinkStore) : ∀ g : Graph.t,
  (∀ x y, Graph.get_edge_data g x y = Graph.get_edge_data g y x) →
  ∀ x y,
    Graph.get_edge_data
      (fold_left (λ (g : Graph.t) (entry : string * Link.t),
                    Graph.add_edge (Link.node_a entry.2) (Link.node_b entry.2)
                      (edge_of entry.2) g) store g) x y
    = Graph.get_edge_data
        (fold_left (λ (g : Graph.t) (entry : string * Link.t),
                      Graph.add_edge (Link.node_a entry.2) (Link.node_b entry.2)
                        (edge_of entry.2) g) store g) y x.
Proof.
  induction store as [|[k l] store IH]; intros g Hsym; [done|].
  cbn [fold_left]. apply IH. intros x y. rewrite !get_edge_data_add_edge.
  rewrite Hsym. repeat case_decide; try done; exfalso; intuition congruence.
Qed.

Lemma fold_add_edge_other (store : LinkStore) x y : ∀ g : Graph.t,
  Forall (λ entry, Link.joins x y entry.2 = false) store →
  Graph.get_edge_data
    (fold_left (λ (g : Graph.t) (entry : string * Link.t),
                  Graph.add_edge (Link.node_a entry.2) (Link.node_b entry.2)
                    (edge_of entry.2) g) store g) x y
  = Graph.get_edge_data g x y.
Proof.
  induction store as [|[k l] store IH]; intros g Hno; [done|].
  inversion Hno as [|? ? Hl Hrest]; subst. cbn [fold_left].
  rewrite IH by done. rewrite get_edge_data_add_edge.
  case_decide as Hj; [|done].
  assert (Link.joins x y l = true)
    by (apply joins_endpoints; simpl in Hj; destruct Hj as [[-> ->]|[-> ->]]; auto).
  simpl in Hl. congruence.
Qed.

(** X14: the graph that [update_networkx_graph] builds is undirected and
    carries the links' attributes.  [get_edge_data] gives the same result
    for both orders of its two nodes; and when no two links of the store
    join the same pair of nodes, the edge between the endpoints of every
    link holds that link's latency as [weight], its bandwidth and its id. *)
Theorem graph_mirrors_links nm :
  (∀ x y,
     Graph.get_edge_data (NetworkManager.graph (NetworkManager.update_networkx_graph nm)) x y
     = Graph.get_edge_data (NetworkManager.graph (NetworkManager.update_networkx_graph nm)) y x)
  ∧ (no_parallel_links (NetworkManager.links nm) →
     ∀ k l, (k, l) ∈ NetworkManager.links nm →
       Graph.get_edge_data
         (NetworkManager.graph (NetworkManager.update_networkx_graph nm))
         (Link.node_a l) (Link.node_b l) = Some (edge_of l)).
Proof.
  unfold NetworkManager.update_networkx_graph. cbn [NetworkManager.graph].
  split.
  - apply fold_add_edge_sym. intros x y. unfold Graph.get_edge_data.
    rewrite !lookup_fmap.
    destruct (NetworkManager.nodes nm !! x), (NetworkManager.nodes nm !! y); done.
  - generalize ((λ _ : Node.t, (∅ : gmap string Graph.EdgeData))
                  <$> NetworkManager.nodes nm).
    induction (NetworkManager.links nm) as [|[k0 l0] store IH];
      intros g Hno k l Hin; [by apply elem_of_nil in Hin|].
    destruct Hno as [Hfirst Hrest]. cbn [fold_left].
    apply elem_of_cons in Hin as [[= -> ->]|Hin].
    + rewrite fold_add_edge_other by done.
      rewrite get_edge_data_add_edge. by rewrite decide_True by (by left).
    + apply (IH _ Hrest k l Hin).
Qed.

Lemma graph_mirrors_links_witness :
  Graph.get_edge_data (NetworkManager.graph sample_network) "N2" "N3"
  = Some (Graph.mkEdge (Some 7%Q) (Some 50%Q) (Some "L2"%string)).
Proof.
  destruct (graph_mirrors_links
              (NetworkManager.mk (NetworkManager.nodes sample_network)
                 (NetworkManager.links sample_network) ∅)) as [_ Hedges].
  apply (Hedges ltac:(simpl; repeat constructor) "L2"%string
           (Link.mk "L2" "N2" "N3" 7 50 1 0 0 "black")).
  simpl. right. left.
Defined.

End GraphOfLinks.

Section LinkLookupWitness.

Lemma get_link_by_nodes_finds_witness :
  Links.get_link_by_nodes "N3" "N2" (NetworkManager.links sample_network)
  = Links.get_link_by_nodes "N2" "N3" (NetworkManager.links sample_network)
  ∧ ∃ before after,
      NetworkManager.links sample_network
      = before ++ ("L2"%string, Link.mk "L2" "N2" "N3" 7 50 1 0 0 "black") :: after.
Proof.
  destruct (get_link_by_nodes_finds "N3" "N2" (NetworkManager.links sample_network))
    as (Hsym & Hfound & _).
  split; [exact Hsym|].
  destruct (Hfound "L2"%string (Link.mk "L2" "N2" "N3" 7 50 1 0 0 "black") eq_refl)
    as (before & after & Hstore & _).
  by exists before, after.
Defined.

End LinkLookupWitness.

(** ** Further properties of the path manager *)

Section SetPath.

Lemma compute_shortest_path_errors_aux shortest_path g source target metric :
  Graph.has_node g source = false ∨ Graph.has_node g target = false
  ∨ source = target →
  ∃ msg, DijkstraRouter.compute_shortest_path shortest_path g source target metric
         = Raise (ValueError msg).
Proof.
  intros Hbad. unfold DijkstraRouter.compute_shortest_path.
  destruct (Graph.has_node g source) eqn:Hs; simpl; [|by eexists].
  destruct (Graph.has_node g target) eqn:Ht; simpl; [|by eexists].
  destruct Hbad as [|[|Heq]]; try done.
  apply String.eqb_eq in Heq. rewrite Heq. by eexists.
Qed.

(** [set_path] changes nothing but the path manager. *)
Lemma set_path_frame shortest_path source_id dest_id w :
  ∃ pm, (set_path shortest_path source_id dest_id w).2
        = with_path_manager (λ _, pm) w.
Proof.
  unfold set_path. step.
  destruct (DijkstraRouter.compute_shortest_path _ _ _ _ _) as [[path|]|e];
    [by eexists | by eexists |].
  destruct e; try (by eexists); exists (path_manager w); by destruct w.
Qed.

(** X15: [set_path] turns the router's failures into a plain [False].  For
    an endpoint that is not in the graph, for equal endpoints, and (given
    the library's contract) for endpoints that no walk connects, it
    returns [False] without raising, clears the current path and leaves
    the path history and the rest of the simulator as they were.  When the
    router returns a path it returns [True], the path becomes the current
    path with the router's total latency for it, and the same record is
    appended to the history. *)
Theorem set_path_outcomes shortest_path source_id dest_id w :
  raises_no_path shortest_path →
  let g := NetworkManager.graph (network_manager w) in
  (Graph.has_node g source_id = false ∨ Graph.has_node g dest_id = false
   ∨ source_id = dest_id ∨ ¬ Graph.connected g source_id dest_id →
   set_path shortest_path source_id dest_id w
   = (Return false,
      with_path_manager
        (λ pm, PathManager.mk None (PathManager.path_history pm)) w))
  ∧ (∀ path,
       DijkstraRouter.compute_shortest_path shortest_path g source_id dest_id
         "latency" = Return (Some path) →
       ∃ info,
         set_path shortest_path source_id dest_id w
         = (Return true,
            with_path_manager
              (λ pm, PathManager.mk (Some info)
                       (PathManager.path_history pm ++ [info])) w)
         ∧ PathManager.path_nodes info = path
         ∧ PathManager.source_id info = source_id
         ∧ PathManager.destination_id info = dest_id
         ∧ PathManager.total_latency info = DijkstraRouter.get_path_cost g path
         ∧ PathManager.throughput info = PathManager.bottleneck_bandwidth info).
Proof.
  intros Hlib g. split.
  - intros Hbad. unfold set_path. step. fold g.
    destruct (Graph.has_node g source_id) eqn:Hs.
    2:{ destruct (compute_shortest_path_errors_aux shortest_path g source_id
                    dest_id "latency") as [msg ->]; [by left|done]. }
    destruct (Graph.has_node g dest_id) eqn:Ht.
    2:{ destruct (compute_shortest_path_errors_aux shortest_path g source_id
                    dest_id "latency") as [msg ->]; [by right; left|done]. }
    destruct (decide (source_id = dest_id)) as [Heq|Hne].
    { destruct (compute_shortest_path_errors_aux shortest_path g source_id
                  dest_id "latency") as [msg ->]; [by right; right|done]. }
    destruct Hbad as [|[|[|Hno]]]; try done.
    unfold DijkstraRouter.compute_shortest_path. rewrite Hs, Ht. simpl.
    apply String.eqb_neq in Hne. rewrite Hne. simpl. by rewrite Hlib.
  - intros path Hpath. unfold set_path. step. fold g. rewrite Hpath.
    eexists. split; [done|]. simpl.
    unfold DijkstraRouter.get_path_info, DijkstraRouter.get_path_cost.
    by destruct (length path <? 2).
Qed.

Lemma set_path_outcomes_witness :
  set_path sample_shortest_path "N1" "N4" sample_simulator
  = (Return false,
     with_path_manager
       (λ pm, PathManager.mk None (PathManager.path_history pm)) sample_simulator).
Proof.
  destruct (set_path_outcomes sample_shortest_path "N1" "N4" sample_simulator
              sample_shortest_path_contract) as [Hfail _].
  apply Hfail. right. right. right. apply sample_isolated.
Defined.

End SetPath.

(** ** Further properties of the packet manager *)

Section CreatePacket.
Import QueueAwarePacketManager.

(** X16: for two known, different nodes [create_packet] increments
    [packet_counter] by exactly 1 whatever the outcome, also when no route
    is found and no packet is made.  When it returns a packet, the packet
    is a new object with the id "PKT" followed by the new counter value in
    four digits, in state QUEUED at the source with the route the router
    found as its path; it is appended to [all_packets], registered in
    [active_packets] under its id, and given a metrics record, and
    [total_packets_sent] grows by 1.  When it returns nothing, no packet
    object is made and the latency engine is unchanged. *)
Theorem create_packet_outcomes shortest_path source_id dest_id size w :
  is_Some (NetworkManager.nodes (network_manager w) !! source_id) →
  is_Some (NetworkManager.nodes (network_manager w) !! dest_id) →
  source_id ≠ dest_id →
  let r := create_packet shortest_path source_id dest_id size w in
  let pid := ("PKT" ++ Py.format_04d (packet_counter (packet_manager w) + 1))%string in
  packet_counter (packet_manager r.2) = (packet_counter (packet_manager w) + 1)%Z
  ∧ (∀ pkt, r.1 = Return (Some pkt) →
       ∃ path,
         DijkstraRouter.compute_shortest_path shortest_path
           (NetworkManager.graph (network_manager w)) source_id dest_id "latency"
         = Return (Some path)
         ∧ pkt = length (packets w)
         ∧ packets r.2
           = packets w
             ++ [Packet.set_current_node_id source_id
                   (Packet.new pid source_id dest_id (sim_time w) (sim_time w)
                      size path QUEUED)]
         ∧ all_packets (packet_manager r.2) = all_packets (packet_manager w) ++ [pkt]
         ∧ active_packets (packet_manager r.2) !! pid = Some pkt
         ∧ is_Some (LatencyThroughputEngine.packet_metrics (latency_engine r.2) !! pid)
         ∧ LatencyThroughputEngine.total_packets_sent (latency_engine r.2)
           = (LatencyThroughputEngine.total_packets_sent (latency_engine w) + 1)%Z)
  ∧ ((∀ pkt, r.1 ≠ Return (Some pkt)) →
     packets r.2 = packets w
     ∧ latency_engine r.2 = latency_engine w
     ∧ all_packets (packet_manager r.2) = all_packets (packet_manager w)
     ∧ active_packets (packet_manager r.2) = active_packets (packet_manager w)).
Proof.
  intros Hs Hd Hne r pid. subst r. unfold create_packet. step.
  rewrite !bool_decide_eq_true_2 by done. simpl.
  apply String.eqb_neq in Hne. rewrite Hne.
  unfold set_path. step. cbn [network_manager with_packet_manager].
  destruct (DijkstraRouter.compute_shortest_path _ _ _ _ _) as [[path|]|e] eqn:Hpath.
  - step. simpl. split; [done|]. split.
    + intros pkt [= <-]. exists path. split_and!; try done.
      * by rewrite lookup_insert_eq.
      * by rewrite lookup_insert_eq.
    + intros Hnone. by destruct (Hnone (length (packets w))).
  - step. simpl. split; [done|]. split; [done|]. done.
  - destruct e; step; simpl; (split; [done|]); (split; [done|]); done.
Qed.

Lemma create_packet_outcomes_witness :
  QueueAwarePacketManager.packet_counter
    (packet_manager
       (create_packet sample_shortest_path "N1" "N4" 1000 sample_simulator).2)
  = 1%Z
  ∧ QueueAwarePacketManager.packet_counter
      (packet_manager
         (create_packet sample_shortest_path "N1" "N3" 1000 sample_simulator).2)
    = 1%Z.
Proof.
  split.
  - apply (create_packet_outcomes sample_shortest_path "N1" "N4" 1000
             sample_simulator); [by eexists | by eexists | discriminate].
  - apply (create_packet_outcomes sample_shortest_path "N1" "N3" 1000
             sample_simulator); [by eexists | by eexists | discriminate].
Defined.

End CreatePacket.

Section DropPacket.
Import QueueAwarePacketManager.

(** The simulator after [drop_packet] on an existing packet. *)
Lemma drop_packet_effect pkt w p :
  packets w !! pkt = Some p →
  drop_packet pkt w
  = (Return (),
     with_animator_worker (AnimatorWorker.remove_packet (Packet.id p))
       (with_packet_manager
          (λ pm, mk (all_packets pm) (delete (Packet.id p) (active_packets pm))
                    (queued_packets pm) (delivered_packets pm)
                    (dropped_packets pm ++ [pkt]) (packet_counter pm))
          (with_latency_engine
             (LatencyThroughputEngine.record_packet_drop (Packet.id p))
             (mutate_packet pkt Packet.mark_dropped
                (mutate_packet pkt (Packet.set_state DROPPED) w))))).
Proof.
  intros Hp. unfold drop_packet. step.
  assert (Hp' : packets (mutate_packet pkt Packet.mark_dropped
                  (mutate_packet pkt (Packet.set_state DROPPED) w)) !! pkt
                = Some (Packet.mark_dropped (Packet.set_state DROPPED p))).
  { unfold mutate_packet, with_packets. cbn [packets].
    by rewrite !list_lookup_alter_eq, Hp. }
  by rewrite Hp'.
Qed.

Lemma drop_packet_controller pkt w :
  congestion_controller (drop_packet pkt w).2 = congestion_controller w
  ∧ network_manager (drop_packet pkt w).2 = network_manager w.
Proof.
  unfold drop_packet. step.
  by destruct (packets _ !! pkt).
Qed.

(** X17: [drop_packet] on an existing packet leaves it DROPPED, removes
    its id from the manager's [active_packets] and from the animation
    worker, appends it to [dropped_packets] and counts the drop in the
    latency engine when the packet has a metrics record.  It touches
    neither the congestion controller nor the network, so a packet that
    sits in a link queue stays there; and it does not check for an earlier
    drop: a second call lists the packet a second time. *)
Theorem drop_packet_bookkeeping pkt w p :
  packets w !! pkt = Some p →
  let w1 := (drop_packet pkt w).2 in
  (drop_packet pkt w).1 = Return ()
  ∧ state_of w1 pkt = Some DROPPED
  ∧ active_packets (packet_manager w1) !! Packet.id p = None
  ∧ AnimatorWorker.active_packets (animator_worker w1) !! Packet.id p = None
  ∧ AnimatorWorker.animators (animator_worker w1) !! Packet.id p = None
  ∧ dropped_packets (packet_manager w1) = dropped_packets (packet_manager w) ++ [pkt]
  ∧ LatencyThroughputEngine.total_packets_dropped (latency_engine w1)
    = (LatencyThroughputEngine.total_packets_dropped (latency_engine w)
       + match LatencyThroughputEngine.packet_metrics (latency_engine w)
               !! Packet.id p with
         | Some _ => 1
         | None => 0
         end)%Z
  ∧ congestion_controller w1 = congestion_controller w
  ∧ network_manager w1 = network_manager w
  ∧ dropped_packets (packet_manager (drop_packet pkt w1).2)
    = dropped_packets (packet_manager w) ++ [pkt; pkt].
Proof.
  intros Hp w1. subst w1.
  assert (Hp1 : packets (drop_packet pkt w).2 !! pkt
                = Some (Packet.mark_dropped (Packet.set_state DROPPED p))).
  { rewrite (drop_packet_effect pkt w p Hp). unfold mutate_packet, with_packets.
    cbn [snd packets with_animator_worker with_packet_manager with_latency_engine].
    by rewrite !list_lookup_alter_eq, Hp. }
  rewrite (drop_packet_effect pkt _ _ Hp1).
  rewrite (drop_packet_effect pkt w p Hp). cbn [fst snd].
  split_and!; try done.
  - unfold state_of, mutate_packet, with_packets.
    cbn [packets with_animator_worker with_packet_manager with_latency_engine].
    by rewrite !list_lookup_alter_eq, Hp.
  - simpl. apply lookup_delete_eq.
  - simpl. apply lookup_delete_eq.
  - simpl. apply lookup_delete_eq.
  - simpl. unfold LatencyThroughputEngine.record_packet_drop.
    destruct (LatencyThroughputEngine.packet_metrics (latency_engine w) !! Packet.id p);
      simpl; lia.
  - simpl. by rewrite <- app_assoc.
Qed.

Lemma drop_packet_bookkeeping_witness :
  state_of (drop_packet 0 sample_created).2 0 = Some DROPPED
  ∧ dropped_packets (packet_manager (drop_packet 0 sample_created).2) = [0].
Proof.
  destruct (drop_packet_bookkeeping 0 sample_created sample_packet eq_refl)
    as (_ & Hstate & _ & _ & _ & Hlist & _).
  split; [exact Hstate | exact Hlist].
Defined.

End DropPacket.

Section NeverDrained.
Import CongestionController.

Lemma not_drained_refl cc : not_drained cc cc.
Proof. intros lid q Hq. exists q. split; [done|]. split; [lia|done]. Qed.

Lemma process_not_drained pkt link now draw w :
  not_drained (congestion_controller w)
    (congestion_controller (process_packet_on_link pkt link now draw w).2).
Proof.
  destruct (process_queues pkt link now draw w) as [Hsame|(l & q & _ & Hq & Hins)];
    intros lid q0 Hq0.
  - rewrite Hsame. exists q0. split; [done|]. split; [lia|done].
  - rewrite Hins. destruct (decide (Link.id l = lid)) as [<-|Hne].
    + rewrite lookup_insert_eq. eexists. split; [done|].
      assert (q0 = q) as -> by congruence.
      destruct (enqueue_effect q pkt now draw) as (_ & Hdeq & _).
      rewrite enqueue_size. split; [|done].
      destruct (LinkQueue.is_full q); lia.
    + rewrite lookup_insert_ne by done. exists q0. split; [done|].
      split; [lia|done].
Qed.

Lemma start_packet_animation_controller pkt draw w :
  congestion_controller (start_packet_animation pkt draw w).2
  = congestion_controller w
  ∨ ∃ link,
      congestion_controller (start_packet_animation pkt draw w).2
      = congestion_controller
          (process_packet_on_link pkt link (sim_time w) draw w).2.
Proof.
  unfold start_packet_animation. step.
  destruct (packets w !! pkt) as [p|]; [|by left].
  assert (Hdrop : ∀ w0,
            congestion_controller
              (let (o, w1) := drop_packet pkt w0 in
               match o with
               | Return _ => (Return false, w1)
               | Raise e => (Raise e, w1)
               end).2 = congestion_controller w0).
  { intros w0. destruct (drop_packet_controller pkt w0) as [Hcc _].
    by destruct (drop_packet pkt w0) as [[]]. }
  destruct (Packet.path p) as [|node_a_id [|node_b_id rest]];
    [left; apply Hdrop | left; apply Hdrop |].
  destruct (Links.get_link_by_nodes _ _ _) as [[link l]|]; [|left; apply Hdrop].
  right. exists link.
  destruct (process_packet_on_link pkt link (sim_time w) draw w) as [[acc|e] w1];
    [|done].
  destruct acc; cbn [negb snd]; [|apply Hdrop].
  destruct (NetworkManager.nodes (network_manager w1) !! node_a_id); [|done].
  by destruct (NetworkManager.nodes (network_manager w1) !! node_b_id).
Qed.

Lemma advance_packet_controller pkt draw w :
  congestion_controller (advance_packet pkt draw w).2 = congestion_controller w
  ∨ ∃ link w0,
      congestion_controller w0 = congestion_controller w
      ∧ congestion_controller (advance_packet pkt draw w).2
        = congestion_controller
            (process_packet_on_link pkt link (sim_time w) draw w0).2.
Proof.
  unfold advance_packet. step.
  destruct (packets w !! pkt) as [p|]; [|by left].
  destruct (Packet.move_to_next_link (sim_time w) p) as [moved reached]. step.
  destruct reached; [by left|].
  destruct (Packet.path moved !! Packet.path_index moved) as [node_a_id|];
    [|by left].
  destruct (Packet.path moved !! S (Packet.path_index moved)) as [node_b_id|];
    [|by left].
  destruct (Links.get_link_by_nodes _ _ _) as [[link l]|]; [|by left].
  right. exists link, (mutate_packet pkt (λ _, moved) w). split; [done|].
  destruct (process_packet_on_link pkt link (sim_time w) draw _) as [[acc|e] w1];
    [|done].
  destruct acc; cbn [negb snd].
  - destruct (NetworkManager.nodes (network_manager w1) !! node_a_id); [|done].
    by destruct (NetworkManager.nodes (network_manager w1) !! node_b_id).
  - destruct (drop_packet_controller pkt w1) as [Hcc _].
    by destruct (drop_packet pkt w1) as [[]].
Qed.

(** X18: the packet manager never takes a packet out of a link queue.
    After [start_packet_animation], [advance_packet] or [drop_packet],
    whatever the outcome, every link queue is at least as long as before
    and its [packets_dequeued] is unchanged: a delivered or dropped packet
    stays in the queues it entered, which only [dequeue_packet] empties. *)
Theorem packet_manager_never_drains pkt draw w :
  not_drained (congestion_controller w)
    (congestion_controller (start_packet_animation pkt draw w).2)
  ∧ not_drained (congestion_controller w)
      (congestion_controller (advance_packet pkt draw w).2)
  ∧ not_drained (congestion_controller w)
      (congestion_controller (drop_packet pkt w).2).
Proof.
  split_and!.
  - destruct (start_packet_animation_controller pkt draw w) as [->|[link ->]];
      [apply not_drained_refl | apply process_not_drained].
  - destruct (advance_packet_controller pkt draw w) as [->|(link & w0 & Hw0 & ->)];
      [apply not_drained_refl|].
    rewrite <- Hw0. apply process_not_drained.
  - destruct (drop_packet_controller pkt w) as [-> _]. apply not_drained_refl.
Qed.

(** X19: a packet whose path has fewer than two nodes, or whose first two
    nodes no link joins, is dropped by [start_packet_animation] without any
    admission attempt: the call returns [False] and leaves the simulator
    exactly as [drop_packet] does, with the congestion controller and the
    network untouched. *)
Theorem start_without_link_drops pkt draw w p :
  packets w !! pkt = Some p →
  match Packet.path p with
  | node_a_id :: node_b_id :: _ =>
      Links.get_link_by_nodes node_a_id node_b_id
        (NetworkManager.links (network_manager w)) = None
  | _ => True
  end →
  start_packet_animation pkt draw w = (Return false, (drop_packet pkt w).2)
  ∧ state_of (start_packet_animation pkt draw w).2 pkt = Some DROPPED
  ∧ congestion_controller (start_packet_animation pkt draw w).2
    = congestion_controller w
  ∧ network_manager (start_packet_animation pkt draw w).2 = network_manager w.
Proof.
  intros Hp Hpath.
  assert (Hrun : start_packet_animation pkt draw w
                 = (Return false, (drop_packet pkt w).2)).
  { unfold start_packet_animation. step. rewrite Hp.
    destruct (Packet.path p) as [|node_a_id [|node_b_id rest]];
      rewrite ?Hpath, (drop_packet_effect pkt w p Hp); done. }
  rewrite Hrun. cbn [snd]. split; [done|].
  destruct (drop_packet_state pkt w p Hp) as (w' & Hd & Hst).
  destruct (drop_packet_controller pkt w) as [Hcc Hnm].
  rewrite Hd in *. done.
Qed.

Lemma start_without_link_drops_witness :
  start_packet_animation 0 0
    (with_packets (λ _, [Packet.new "PKT0009" "N1" "N1" 0 0 64 ["N1"%string] QUEUED])
       sample_simulator)
  = (Return false,
     (drop_packet 0
        (with_packets
           (λ _, [Packet.new "PKT0009" "N1" "N1" 0 0 64 ["N1"%string] QUEUED])
           sample_simulator)).2).
Proof.
  apply (start_without_link_drops 0 0
           (with_packets
              (λ _, [Packet.new "PKT0009" "N1" "N1" 0 0 64 ["N1"%string] QUEUED])
              sample_simulator)
           (Packet.new "PKT0009" "N1" "N1" 0 0 64 ["N1"%string] QUEUED));
    [reflexivity | exact I].
Defined.

End NeverDrained.

(** ** Further properties of the latency engine *)

Section MetricsAppend.
Import LatencyThroughputEngine.

(** The loop of [calculate_metrics], component by component. *)
Lemma metrics_loop store pairs : ∀ (total : Q) (min_bw : option Q)
    (latencies : list Q) (ids : list string),
  fold_left
    (λ '(total_lat, min_bw, latencies, ids) '(node_a_id, node_b_id),
       match Links.get_link_by_nodes node_a_id node_b_id store with
       | Some (_, link) =>
           ((total_lat + Link.latency link)%Q,
            Py.min_inf min_bw (Link.bandwidth link),
            latencies ++ [Link.latency link],
            ids ++ [Link.id link])
       | None => (total_lat, min_bw, latencies, ids)
       end)
    pairs (total, min_bw, latencies, ids)
  = (fold_left Qplus
       (Link.latency <$> omap (λ '(a, b), snd <$> Links.get_link_by_nodes a b store) pairs)
       total,
     fold_left Py.min_inf
       (Link.bandwidth <$> omap (λ '(a, b), snd <$> Links.get_link_by_nodes a b store) pairs)
       min_bw,
     latencies
       ++ (Link.latency <$> omap (λ '(a, b), snd <$> Links.get_link_by_nodes a b store) pairs),
     ids
       ++ (Link.id <$> omap (λ '(a, b), snd <$> Links.get_link_by_nodes a b store) pairs)).
Proof.
  induction pairs as [|[a b] pairs IH]; intros total min_bw latencies ids.
  - simpl. by rewrite !app_nil_r.
  - cbn [fold_left omap list_omap].
    destruct (Links.get_link_by_nodes a b store) as [[k l]|]; simpl.
    + rewrite IH. by rewrite <- !app_assoc.
    + apply IH.
Qed.

Lemma calculate_metrics_lists store m :
  path_nodes (calculate_metrics store m) = path_nodes m
  ∧ packet_size (calculate_metrics store m) = packet_size m
  ∧ path_latencies (calculate_metrics store m)
    = path_latencies m ++ (Link.latency <$> links_on_path store (path_nodes m))
  ∧ link_ids (calculate_metrics store m)
    = link_ids m ++ (Link.id <$> links_on_path store (path_nodes m))
  ∧ total_latency (calculate_metrics store m)
    = fold_left Qplus (Link.latency <$> links_on_path store (path_nodes m)) 0%Q
  ∧ hop_count (calculate_metrics store m)
    = (Z.of_nat (length (path_nodes m)) - 1)%Z
  ∧ delivery_time (calculate_metrics store m) = delivery_time m.
Proof.
  unfold calculate_metrics, links_on_path. rewrite metrics_loop. done.
Qed.

Lemma occurrences_app lid ids1 ids2 :
  occurrences lid (ids1 ++ ids2) = occurrences lid ids1 + occurrences lid ids2.
Proof. unfold occurrences. by rewrite filter_app, length_app. Qed.

(** The loop of [_update_link_metrics_for_packet] counts one delivery per
    occurrence of a link id. *)
Lemma count_delivery_fold m lid ids : ∀ lms lm,
  lms !! lid = Some lm →
  ∃ lm',
    fold_left (count_delivery m) ids lms !! lid = Some lm'
    ∧ packets_sent lm' = (packets_sent lm + Z.of_nat (occurrences lid ids))%Z
    ∧ packets_received lm'
      = (packets_received lm + Z.of_nat (occurrences lid ids))%Z
    ∧ total_bytes_transferred lm'
      = (total_bytes_transferred lm
         + packet_size m * Z.of_nat (occurrences lid ids))%Z.
Proof.
  induction ids as [|i ids IH]; intros lms lm Hlm.
  - exists lm. unfold occurrences. simpl. split; [done|]. split_and!; lia.
  - cbn [fold_left]. unfold occurrences. rewrite filter_cons.
    fold (occurrences lid ids).
    destruct (decide (i = lid)) as [->|Hne].
    + assert (Hstep : ∃ lm1,
                count_delivery m lms lid = <[lid := lm1]> lms
                ∧ packets_sent lm1 = (packets_sent lm + 1)%Z
                ∧ packets_received lm1 = (packets_received lm + 1)%Z
                ∧ total_bytes_transferred lm1
                  = (total_bytes_transferred lm + packet_size m)%Z).
      { unfold count_delivery. rewrite Hlm. eexists. split; [done|]. done. }
      destruct Hstep as (lm1 & -> & Hs1 & Hr1 & Hb1).
      destruct (IH (<[lid := lm1]> lms) lm1 (lookup_insert_eq lms lid lm1))
        as (lm' & Hfold & Hs & Hr & Hb).
      exists lm'. split; [exact Hfold|]. cbn [length].
      change (length (filter (λ x : string, x = lid) ids))
        with (occurrences lid ids).
      split_and!; lia.
    + assert (Hother : count_delivery m lms i !! lid = Some lm).
      { unfold count_delivery. destruct (lms !! i); [|done].
        by rewrite lookup_insert_ne. }
      by apply IH.
Qed.

(** X20: [calculate_metrics] appends to the packet's [path_latencies] and
    [link_ids] each time it runs, and it runs once when the metrics record
    is created and once more at delivery.  So after [create_packet_metrics]
    and [record_packet_delivery] for one packet, its record lists every
    link of its path twice, while [hop_count] and [total_latency] are those
    of one traversal; and every link metrics record is charged two
    deliveries (and twice the packet's bytes) for each time the link
    occurs on the path. *)
Theorem delivery_is_counted_twice store pid src dst route size created time le :
  let ids := Link.id <$> links_on_path store route in
  let le1 := create_packet_metrics store pid src dst route size created le in
  let le2 := record_packet_delivery store pid time le1 in
  (∃ m,
     packet_metrics le2 !! pid = Some m
     ∧ link_ids m = ids ++ ids
     ∧ path_latencies m
       = (Link.latency <$> links_on_path store route)
         ++ (Link.latency <$> links_on_path store route)
     ∧ hop_count m = (Z.of_nat (length route) - 1)%Z
     ∧ total_latency m
       = fold_left Qplus (Link.latency <$> links_on_path store route) 0%Q
     ∧ delivery_time m = time)
  ∧ total_packets_delivered le2 = (total_packets_delivered le + 1)%Z
  ∧ ∀ lid lm,
      link_metrics le !! lid = Some lm →
      ∃ lm',
        link_metrics le2 !! lid = Some lm'
        ∧ packets_sent lm'
          = (packets_sent lm + 2 * Z.of_nat (occurrences lid ids))%Z
        ∧ packets_received lm'
          = (packets_received lm + 2 * Z.of_nat (occurrences lid ids))%Z
        ∧ total_bytes_transferred lm'
          = (total_bytes_transferred lm
             + size * (2 * Z.of_nat (occurrences lid ids)))%Z.
Proof.
  intros ids le1 le2. subst le1 le2.
  unfold record_packet_delivery, create_packet_metrics.
  cbn [packet_metrics]. rewrite lookup_insert_eq.
  cbn [packet_metrics link_metrics total_packets_delivered].
  set (m0 := mkPacketMetrics pid src dst route size "queued" created created 0
                             [] 0 0 0 0 0 []).
  set (m1 := calculate_metrics store m0).
  set (m2 := calculate_metrics store (set_delivered time m1)).
  destruct (calculate_metrics_lists store m0) as (Hp1 & Hs1 & Hl1 & Hi1 & _).
  fold m1 in Hp1, Hs1, Hl1, Hi1. simpl in Hp1, Hs1, Hl1, Hi1.
  destruct (calculate_metrics_lists store (set_delivered time m1))
    as (Hp2 & Hs2 & Hl2 & Hi2 & Ht2 & Hh2 & Hd2).
  fold m2 in Hp2, Hs2, Hl2, Hi2, Ht2, Hh2, Hd2.
  cbn [path_nodes path_latencies link_ids packet_size delivery_time set_delivered]
    in Hp2, Hs2, Hl2, Hi2, Ht2, Hh2, Hd2.
  rewrite Hp1 in *. rewrite Hl1 in Hl2. rewrite Hi1 in Hi2. rewrite Hs1 in Hs2.
  split_and!.
  - exists m2. rewrite lookup_insert_eq. split_and!; done.
  - done.
  - intros lid lm Hlm.
    destruct (count_delivery_fold m2 lid (link_ids m2) (link_metrics le) lm Hlm)
      as (lm' & Hfold & Hsent & Hrecv & Hbytes).
    exists lm'. split; [exact Hfold|].
    rewrite Hi2, occurrences_app in Hsent, Hrecv, Hbytes. fold ids in Hsent, Hrecv, Hbytes.
    rewrite Hs2 in Hbytes. split_and!; lia.
Qed.

End MetricsAppend.

Section MetricsAppendWitness.
Import LatencyThroughputEngine.

Lemma delivery_is_counted_twice_witness :
  ∃ lm',
    link_metrics
      (record_packet_delivery (NetworkManager.links sample_network) "PKT0001" 12
         (create_packet_metrics (NetworkManager.links sample_network) "PKT0001"
            "N1" "N3" ["N1"; "N2"; "N3"]%string 1000 0 sample_engine))
    !! "L1"%string = Some lm'
    ∧ packets_sent lm'
      = (0 + 2 * Z.of_nat
                 (occurrences "L1"
                    (Link.id <$> links_on_path (NetworkManager.links sample_network)
                                   ["N1"; "N2"; "N3"]%string)))%Z.
Proof.
  destruct (delivery_is_counted_twice (NetworkManager.links sample_network)
              "PKT0001" "N1" "N3" ["N1"; "N2"; "N3"]%string 1000 0 12 sample_engine)
    as (_ & _ & Hlinks).
  destruct (Hlinks "L1"%string (mkLinkMetrics "L1" "N1" "N2" 5 100 0 0 0 0) eq_refl)
    as (lm' & Hlm & Hsent & _).
  exists lm'. split; [exact Hlm | exact Hsent].
Defined.

End MetricsAppendWitness.
